(** * Polygon3: convex polygons of the CSG core

    A shallow embedding of [src/core/math/Polygon3.js] and a verification of
    its transform, flip, measure, bounding-volume and provenance operations.

    JavaScript numbers are kept behind the interface [Number]; every
    definition is written once against that interface, and the statements on
    what the methods compute hold for every instance of it.  Two instances
    are given: [float] (IEEE 754 binary64, the numbers the program computes
    with, executable) and [R] (exact arithmetic, without rounding, overflow
    or NaN), in which a few statements on order and sign are proved that do
    not depend on rounding. *)

From Stdlib Require Import Floats.
From Stdlib Require Import ZArith Reals Lra Ascii.
From stdpp Require Import gmap strings list fin_maps pretty.

Set Default Proof Using "Type".

(** ** Numbers *)

Class Number (num : Type) := {
  num_zero : num;                      (* the literal 0 *)
  num_one : num;                       (* the literal 1 *)
  num_two : num;                       (* the literal 2 *)
  num_six : num;                       (* the literal 6 *)
  num_half : num;                      (* the literal 0.5 *)
  num_add : num -> num -> num;         (* a + b *)
  num_sub : num -> num -> num;         (* a - b *)
  num_mul : num -> num -> num;         (* a * b *)
  num_div : num -> num -> num;         (* a / b *)
  num_neg : num -> num;                (* -a *)
  num_ge : num -> num -> bool;         (* a >= b *)
  Math_sqrt : num -> num;
  Math_min : num -> num -> num;
  Math_max : num -> num -> num
}.

Declare Scope num_scope.
Delimit Scope num_scope with num.
Infix "+" := num_add : num_scope.
Infix "-" := num_sub : num_scope.
Infix "*" := num_mul : num_scope.
Infix "/" := num_div : num_scope.
Notation "- a" := (num_neg a) : num_scope.
Infix ">=?" := num_ge (at level 70, no associativity) : num_scope.

(** Exact real arithmetic: no rounding, no overflow, no NaN and one zero.
    It is not the arithmetic of the program; an identity that holds here
    holds on doubles only where no operation rounds. *)
#[export] Instance Number_R : Number R := {|
  num_zero := 0%R;
  num_one := 1%R;
  num_two := 2%R;
  num_six := 6%R;
  num_half := (1 / 2)%R;
  num_add := Rplus;
  num_sub := Rminus;
  num_mul := Rmult;
  num_div := Rdiv;
  num_neg := Ropp;
  num_ge := fun a b => if Rle_dec b a then true else false;
  Math_sqrt := sqrt;
  Math_min := Rmin;
  Math_max := Rmax
|}.

(** IEEE 754 doubles.  [Math.min] and [Math.max] answer NaN as soon as one
    argument is NaN and order -0 below +0. *)
Definition float_Math_min (a b : float) : float :=
  if (PrimFloat.is_nan a || PrimFloat.is_nan b)%bool then PrimFloat.nan
  else if PrimFloat.ltb a b then a
  else if PrimFloat.ltb b a then b
  else if PrimFloat.get_sign a then a else b.

Definition float_Math_max (a b : float) : float :=
  if (PrimFloat.is_nan a || PrimFloat.is_nan b)%bool then PrimFloat.nan
  else if PrimFloat.ltb a b then b
  else if PrimFloat.ltb b a then a
  else if PrimFloat.get_sign a then b else a.

#[export] Instance Number_float : Number float := {|
  num_zero := 0%float;
  num_one := 1%float;
  num_two := 2%float;
  num_six := 6%float;
  num_half := 0.5%float;
  num_add := PrimFloat.add;
  num_sub := PrimFloat.sub;
  num_mul := PrimFloat.mul;
  num_div := PrimFloat.div;
  num_neg := PrimFloat.opp;
  num_ge := fun a b => PrimFloat.leb b a;
  Math_sqrt := PrimFloat.sqrt;
  Math_min := float_Math_min;
  Math_max := float_Math_max
|}.

(** ** Vector3D *)

Module Vector3D.
Section ops.
Context {num : Type} `{Number num}.

(** Modelled from the spec: the vector type of [./Vector3] (not in src),
    "the underlying vector/point algebra ... supplying dot/cross
    products"; [min] and [max] are the component-wise ones the bounding
    box is specified with. *)
Record t := Create { _x : num; _y : num; _z : num }.

Definition plus (a b : t) : t :=
  Create (_x a + _x b)%num (_y a + _y b)%num (_z a + _z b)%num.
Definition minus (a b : t) : t :=
  Create (_x a - _x b)%num (_y a - _y b)%num (_z a - _z b)%num.
Definition times (a : t) (k : num) : t :=
  Create (_x a * k)%num (_y a * k)%num (_z a * k)%num.
Definition negated (a : t) : t :=
  Create (- _x a)%num (- _y a)%num (- _z a)%num.
Definition dot (a b : t) : num :=
  (_x a * _x b + _y a * _y b + _z a * _z b)%num.
Definition cross (a b : t) : t :=
  Create (_y a * _z b - _z a * _y b)%num
         (_z a * _x b - _x a * _z b)%num
         (_x a * _y b - _y a * _x b)%num.
Definition length (a : t) : num := Math_sqrt (dot a a).
Definition min (a b : t) : t :=
  Create (Math_min (_x a) (_x b)) (Math_min (_y a) (_y b)) (Math_min (_z a) (_z b)).
Definition max (a b : t) : t :=
  Create (Math_max (_x a) (_x b)) (Math_max (_y a) (_y b)) (Math_max (_z a) (_z b)).
End ops.
Arguments t : clear implicits.
Arguments t num : assert.
End Vector3D.

Abbreviation Vector3D := Vector3D.t.

(** ** Exceptions *)

(** [throw new Error(msg)] and the [TypeError] the runtime raises when a
    property of [undefined] is read or a missing method is called. *)
Inductive exn : Type :=
| Error (msg : string)
| TypeError (msg : string).

Inductive result (A : Type) : Type :=
| OK (a : A)
| Throw (e : exn).
Arguments OK {A} a.
Arguments Throw {A} e.

Definition result_bind {A B : Type} (r : result A) (k : A -> result B) : result B :=
  match r with
  | OK a => k a
  | Throw e => Throw e
  end.

Declare Scope result_scope.
Delimit Scope result_scope with res.
Bind Scope result_scope with result.
Notation "x <- r ;; k" := (result_bind r (fun x => k))
  (at level 100, r at next level, k at level 200, right associativity) : result_scope.

(** [for (let i = lo; i < lo + count; i++) acc = body(i, acc)] *)
Fixpoint for_loop {A : Type} (i count : nat) (body : nat -> A -> result A) (acc : A) : result A :=
  match count with
  | O => OK acc
  | S count' => (acc' <- body i acc;; for_loop (S i) count' body acc')%res
  end.

(** ** The collaborators of Polygon3 *)

(** [./Matrix4] (not in src): only the mirroring predicate and the
    translation factory are called. *)
Class Matrix4x4Ops (num Matrix4x4 : Type) := {
  isMirroring : Matrix4x4 -> bool;
  translation : Vector3D num -> Matrix4x4
}.

(** [./Vertex3] (not in src).  The vertices of a polygon "do not have to be
    Vertex instances but they must behave similarly": a position, a flip and
    a transform. *)
Class VertexLike (num Matrix4x4 Vertex : Type) := {
  pos : Vertex -> Vector3D num;
  Vertex_flipped : Vertex -> Vertex;
  Vertex_transform : Vertex -> Matrix4x4 -> Vertex
}.

Module Plane.
Section ops.
Context {num : Type} `{Number num}.

(** Modelled from the spec: the plane type of [./Plane] (not in src), "a
    unit normal and a scalar offset" that "supports flip (negate normal and
    offset)". *)
Record t := Create { normal : Vector3D num; w : num }.

Definition flipped (pl : t) : t :=
  Create (Vector3D.negated (normal pl)) (- w pl)%num.
End ops.
Arguments t : clear implicits.
Arguments t num : assert.
End Plane.

Abbreviation Plane := Plane.t.

(** The two operations of [./Plane] whose computation the spec leaves to the
    plane type: the affine transform and the derivation from three points. *)
Class PlaneOps (num Matrix4x4 : Type) := {
  Plane_transform : Plane num -> Matrix4x4 -> Plane num;
  Plane_fromVector3Ds : Vector3D num -> Vector3D num -> Vector3D num -> Plane num
}.

(** [../constants] (not in src). *)
Class Constants (num : Type) := {
  _CSGDEBUG : bool;
  EPS : num
}.

(** ** Objects and the heap *)

Definition loc := nat.

Section objects.
Context {num : Type} {Vertex : Type}.

(** A value [Shared.fromColor] is called with: a number or an array of
    numbers. *)
Inductive jsval : Type :=
| Num (n : num)
| Arr (a : list num).

(** [Polygon3.Shared]: [color] is [null] or an array.  (The tag that
    [getTag] assigns lazily is left out; no statement below depends on it.) *)
Record Shared := mkShared { color : option (list jsval) }.

(** A [Polygon3] object.  [shared] is a reference: the record is aliased by
    every polygon derived from this one.  The two caches are absent until
    the first bounds query. *)
Record Polygon3 := mkPolygon3 {
  vertices : list Vertex;
  shared : loc;
  plane : Plane num;
  cachedBoundingBox : option (Vector3D num * Vector3D num);
  cachedBoundingSphere : option (Vector3D num * num)
}.

Record heap := mkHeap {
  polygons : gmap loc Polygon3;
  shareds : gmap loc Shared
}.

(** Computations that read and write the heap and may throw. *)
Definition M (A : Type) : Type := heap -> result A * heap.

Definition ret {A : Type} (a : A) : M A := fun h => (OK a, h).
Definition M_bind {A B : Type} (m : M A) (k : A -> M B) : M B := fun h =>
  match m h with
  | (OK a, h') => k a h'
  | (Throw e, h') => (Throw e, h')
  end.
Definition throw {A : Type} (e : exn) : M A := fun h => (Throw e, h).
Definition lift {A : Type} (r : result A) : M A := fun h => (r, h).

(** [new] of a polygon or of a shared record: a location not yet in use. *)
Definition alloc_polygon (p : Polygon3) : M loc := fun h =>
  let l := fresh (dom (polygons h)) in
  (OK l, mkHeap (<[l := p]> (polygons h)) (shareds h)).

Definition alloc_shared (s : Shared) : M loc := fun h =>
  let l := fresh (dom (shareds h)) in
  (OK l, mkHeap (polygons h) (<[l := s]> (shareds h))).

(** Reading [this]. *)
Definition deref (this : loc) : M Polygon3 := fun h =>
  match polygons h !! this with
  | Some p => (OK p, h)
  | None => (Throw (TypeError "Cannot read properties of undefined"), h)
  end.

(** [this.shared = s], [this.cachedBoundingBox = b],
    [this.cachedBoundingSphere = s]: assignments to one field of [this]. *)
Definition assign (this : loc) (f : Polygon3 -> Polygon3) : M unit := fun h =>
  match polygons h !! this with
  | Some p => (OK tt, mkHeap (<[this := f p]> (polygons h)) (shareds h))
  | None => (Throw (TypeError "Cannot set properties of undefined"), h)
  end.

Definition set_shared (s : loc) (p : Polygon3) : Polygon3 :=
  mkPolygon3 (vertices p) s (plane p) (cachedBoundingBox p) (cachedBoundingSphere p).
Definition set_cachedBoundingBox (b : Vector3D num * Vector3D num) (p : Polygon3) : Polygon3 :=
  mkPolygon3 (vertices p) (shared p) (plane p) (Some b) (cachedBoundingSphere p).
Definition set_cachedBoundingSphere (s : Vector3D num * num) (p : Polygon3) : Polygon3 :=
  mkPolygon3 (vertices p) (shared p) (plane p) (cachedBoundingBox p) (Some s).
End objects.

Arguments jsval : clear implicits.
Arguments Shared : clear implicits.
Arguments Polygon3 : clear implicits.
Arguments heap : clear implicits.
Arguments M : clear implicits.

Declare Scope M_scope.
Delimit Scope M_scope with M.
Bind Scope M_scope with M.
Notation "x <- m ;; k" := (M_bind m (fun x => k)) : M_scope.
Notation "m ;; k" := (M_bind m (fun _ => k)) : M_scope.

(** ** Polygon3.js *)

Section Polygon3.
Context {num : Type} `{Number num} `{Constants num}.
Context {Matrix4x4 Vertex : Type}.
Context `{Matrix4x4Ops num Matrix4x4} `{VertexLike num Matrix4x4 Vertex}.
Context `{PlaneOps num Matrix4x4}.

Local Abbreviation M := (M num Vertex).
Local Abbreviation Polygon3 := (Polygon3 num Vertex).
Local Abbreviation jsval := (jsval num).
Local Open Scope M_scope.

(** [vertices[i].pos]: reading [pos] of [undefined] throws. *)
Definition pos_at (vertices : list Vertex) (i : nat) : result (Vector3D num) :=
  match vertices !! i with
  | Some v => OK (pos v)
  | None => Throw (TypeError "Cannot read properties of undefined (reading 'pos')")
  end.

(** *** Convexity *)

Definition isConvexPoint (prevpoint point nextpoint normal : Vector3D num) : bool :=
  let crossproduct :=
    Vector3D.cross (Vector3D.minus point prevpoint) (Vector3D.minus nextpoint point) in
  let crossdotnormal := Vector3D.dot crossproduct normal in
  (crossdotnormal >=? num_zero)%num.

Definition isStrictlyConvexPoint (prevpoint point nextpoint normal : Vector3D num) : bool :=
  let crossproduct :=
    Vector3D.cross (Vector3D.minus point prevpoint) (Vector3D.minus nextpoint point) in
  let crossdotnormal := Vector3D.dot crossproduct normal in
  (crossdotnormal >=? EPS)%num.

(** The loop of [verticesConvex], with its early [return false]. *)
Fixpoint verticesConvex_loop (vertices : list Vertex) (planenormal : Vector3D num)
    (i count : nat) (prevprevpos prevpos : Vector3D num) : result bool :=
  match count with
  | O => OK true
  | S count' =>
      (pos <- pos_at vertices i;;
       if negb (isConvexPoint prevprevpos prevpos pos planenormal) then OK false
       else verticesConvex_loop vertices planenormal (S i) count' prevpos pos)%res
  end.

Definition verticesConvex (vertices : list Vertex) (planenormal : Vector3D num) : result bool :=
  let numvertices := length vertices in
  if 2 <? numvertices then
    (prevprevpos <- pos_at vertices (numvertices - 2);;
     prevpos <- pos_at vertices (numvertices - 1);;
     verticesConvex_loop vertices planenormal 0 numvertices prevprevpos prevpos)%res
  else OK true.

(** *** Polygon3.Shared *)

Definition new_Shared (color : option (list jsval)) : M loc :=
  match color with
  | Some c =>
      if negb (length c =? 4) then throw (Error "Expecting 4 element array")
      else alloc_shared (mkShared color)
  | None => alloc_shared (mkShared color)
  end.

Definition Shared_fromColor (arguments : list jsval) : M loc :=
  color <- match arguments with
           | [a] =>
               match a with
               | Arr a => ret (Num <$> a)
               | Num _ => throw (TypeError "arguments[0].slice is not a function")
               end
           | _ => ret (foldl (fun color a => color ++ [a]) [] arguments)
           end;;
  color <- (if length color =? 3 then ret (color ++ [Num num_one])
            else if negb (length color =? 4) then
              throw (Error "setColor expects either an array with 3 or 4 elements, or 3 or 4 parameters.")
            else ret color);;
  new_Shared (Some color).

(** [Polygon3.defaultShared = new Polygon3.Shared(null)], evaluated once when
    the module is loaded, on the empty heap. *)
Definition module_heap : heap num Vertex :=
  (new_Shared None (mkHeap ∅ ∅)).2.

Definition defaultShared : loc := 0.

(** *** The constructor *)

Definition checkIfConvex (this : loc) : M bool :=
  p <- deref this;;
  lift (verticesConvex (vertices p) (Plane.normal (plane p))).

Definition new_Polygon3 (vertices : list Vertex) (shared : option loc)
    (plane : option (Plane num)) : M loc :=
  let shared := default defaultShared shared in
  plane <- match plane with
           | Some plane => ret plane
           | None =>
               lift (a <- pos_at vertices 0;;
                     b <- pos_at vertices 1;;
                     c <- pos_at vertices 2;;
                     OK (Plane_fromVector3Ds a b c))%res
           end;;
  this <- alloc_polygon (mkPolygon3 vertices shared plane None None);;
  if _CSGDEBUG then
    convex <- checkIfConvex this;;
    if convex then ret this else throw (Error "Not convex!")
  else ret this.

(** *** Methods *)

Definition setColor (this : loc) (arguments : list jsval) : M loc :=
  newshared <- Shared_fromColor arguments;;
  assign this (set_shared newshared);;
  ret this.

Definition getSignedVolume (this : loc) : M num :=
  p <- deref this;;
  signedVolume <- lift (for_loop 0 (length (vertices p) - 2) (fun i signedVolume =>
    a <- pos_at (vertices p) 0;;
    b <- pos_at (vertices p) (i + 1);;
    c <- pos_at (vertices p) (i + 2);;
    OK (signedVolume + Vector3D.dot a (Vector3D.cross b c))%num)%res num_zero);;
  ret (signedVolume / num_six)%num.

Definition getArea (this : loc) : M num :=
  p <- deref this;;
  polygonArea <- lift (for_loop 0 (length (vertices p) - 2) (fun i polygonArea =>
    b <- pos_at (vertices p) (i + 1);;
    a <- pos_at (vertices p) 0;;
    c <- pos_at (vertices p) (i + 2);;
    b' <- pos_at (vertices p) (i + 1);;
    OK (polygonArea +
        Vector3D.length (Vector3D.cross (Vector3D.minus b a) (Vector3D.minus c b')))%num)%res
    num_zero);;
  ret (polygonArea / num_two)%num.

(** [features.forEach(...)] pushing onto [result]. *)
Fixpoint getTetraFeatures_forEach (this : loc) (features : list string)
    (result : list num) : M (list num) :=
  match features with
  | [] => ret result
  | feature :: features' =>
      result' <- (if String.eqb feature "volume" then
                    v <- getSignedVolume this;; ret (result ++ [v])
                  else if String.eqb feature "area" then
                    a <- getArea this;; ret (result ++ [a])
                  else ret result);;
      getTetraFeatures_forEach this features' result'
  end.

Definition getTetraFeatures (this : loc) (features : list string) : M (list num) :=
  getTetraFeatures_forEach this features [].

Definition boundingBox (this : loc) : M (Vector3D num * Vector3D num) :=
  p <- deref this;;
  match cachedBoundingBox p with
  | Some box => ret box
  | None =>
      let vertices := vertices p in
      let numvertices := length vertices in
      minpoint <- lift (if numvertices =? 0
                        then OK (Vector3D.Create num_zero num_zero num_zero)
                        else pos_at vertices 0);;
      let maxpoint := minpoint in
      box <- lift (for_loop 1 (numvertices - 1) (fun i '(minpoint, maxpoint) =>
        point <- pos_at vertices i;;
        OK (Vector3D.min minpoint point, Vector3D.max maxpoint point))%res
        (minpoint, maxpoint));;
      assign this (set_cachedBoundingBox box);;
      ret box
  end.

Definition boundingSphere (this : loc) : M (Vector3D num * num) :=
  p <- deref this;;
  match cachedBoundingSphere p with
  | Some sphere => ret sphere
  | None =>
      box <- boundingBox this;;
      let middle := Vector3D.times (Vector3D.plus box.1 box.2) num_half in
      let radius3 := Vector3D.minus box.2 middle in
      let radius := Vector3D.length radius3 in
      assign this (set_cachedBoundingSphere (middle, radius));;
      ret (middle, radius)
  end.

Definition flipped (this : loc) : M loc :=
  p <- deref this;;
  let newvertices := Vertex_flipped <$> vertices p in
  let newvertices := reverse newvertices in
  let newplane := Plane.flipped (plane p) in
  new_Polygon3 newvertices (Some (shared p)) (Some newplane).

Definition transform (this : loc) (matrix4x4 : Matrix4x4) : M loc :=
  p <- deref this;;
  let newvertices := (fun v => Vertex_transform v matrix4x4) <$> vertices p in
  let newplane := Plane_transform (plane p) matrix4x4 in
  let newvertices := if isMirroring matrix4x4 then reverse newvertices else newvertices in
  new_Polygon3 newvertices (Some (shared p)) (Some newplane).

Definition translate (this : loc) (offset : Vector3D num) : M loc :=
  transform this (translation offset).

End Polygon3.

(** ** Polygon3.js: construction from plain data, the hash of a shared record *)

(** [Number.prototype.toString] (the runtime's), as [Array.prototype.join]
    applies it to the components of a color. *)
Class NumberToString (num : Type) := {
  num_toString : num -> string
}.

(** [Vertex.fromObject] of [./Vertex3] and [Plane.fromObject] of [./Plane]
    (not in src), on the untyped records they read. *)
Class FromObject (num Vertex VertexObject PlaneObject : Type) := {
  Vertex_fromObject : VertexObject -> Vertex;
  Plane_fromObject : PlaneObject -> Plane num
}.

(** [new Vector3D(p)] of [./Vector3] on a raw point and [new Vertex(vec)] of
    [./Vertex3] (not in src). *)
Class FromPoint (num Vertex Point : Type) := {
  new_Vector3D : Point -> Vector3D num;
  new_Vertex : Vector3D num -> Vertex
}.

(** [array.join(sep)] on strings. *)
Fixpoint Array_join (sep : string) (items : list string) : string :=
  match items with
  | [] => ""
  | [item] => item
  | item :: items' => item +:+ sep +:+ Array_join sep items'
  end.

Section Polygon3_data.
Context {num : Type} `{Number num} `{Constants num} `{NumberToString num}.
Context {Matrix4x4 Vertex VertexObject PlaneObject Point : Type}.
Context `{Matrix4x4Ops num Matrix4x4} `{VertexLike num Matrix4x4 Vertex}.
Context `{PlaneOps num Matrix4x4}.
Context `{FromObject num Vertex VertexObject PlaneObject} `{FromPoint num Vertex Point}.

Local Abbreviation M := (M num Vertex).
Local Abbreviation jsval := (jsval num).
Local Open Scope M_scope.

(** The untyped object [Polygon3.fromObject] reads: [obj.vertices],
    [obj.shared.color] and [obj.plane]. *)
Record SharedObject := mkSharedObject { obj_color : option (list jsval) }.
Record PolygonObject := mkPolygonObject {
  obj_vertices : list VertexObject;
  obj_shared : SharedObject;
  obj_plane : PlaneObject
}.

Definition Shared_fromObject (obj : SharedObject) : M loc :=
  new_Shared (obj_color obj).

Definition Polygon3_fromObject (obj : PolygonObject) : M loc :=
  let vertices := Vertex_fromObject <$> obj_vertices obj in
  shared <- Shared_fromObject (obj_shared obj);;
  let plane := Plane_fromObject (obj_plane obj) in
  new_Polygon3 vertices (Some shared) (Some plane).

(** [plane] is [None] when [createFromPoints] is called with fewer than
    three arguments. *)
Definition createFromPoints (points : list Point) (shared : option loc)
    (plane : option (Plane num)) : M loc :=
  let vertices :=
    foldl (fun vertices p =>
             let vec := new_Vector3D p in
             let vertex := new_Vertex vec in
             vertices ++ [vertex]) [] points in
  match plane with
  | None => new_Polygon3 vertices shared None
  | Some plane => new_Polygon3 vertices shared (Some plane)
  end.

(** Reading a shared record. *)
Definition deref_shared (this : loc) : M (Shared num) := fun h =>
  match shareds h !! this with
  | Some s => (OK s, h)
  | None => (Throw (TypeError "Cannot read properties of undefined"), h)
  end.

(** The string [join] makes of one component: a number, or an array, whose
    [toString] joins its elements with commas. *)
Definition jsval_toString (v : jsval) : string :=
  match v with
  | Num n => num_toString n
  | Arr a => Array_join "," (num_toString <$> a)
  end.

Definition Shared_getHash (this : loc) : M string :=
  s <- deref_shared this;;
  match color s with
  | None => ret "null"
  | Some c => ret (Array_join "/" (jsval_toString <$> c))
  end.
End Polygon3_data.

Arguments SharedObject : clear implicits.
Arguments PolygonObject : clear implicits.

(** ** An implementation of the collaborators

    The interfaces above are all the polygon code relies on.  The instances
    below implement them for the plain vertex (a position and nothing else),
    for affine maps that scale each axis and then translate, and for planes
    derived by the right-hand rule; the examples and the concrete instances
    of the theorems run on them. *)

Module Collaborators.
Section impl.
Context {num : Type} `{Number num}.

(** Modelled from the spec: the vertex of [./Vertex3] (not in src), "a
    position in 3-space plus capability to flip (negate associated normal, if
    any) and to be mapped through an affine transform"; the plain vertex has
    no normal attached. *)
Record Vertex3 := mkVertex { vpos : Vector3D num }.

(** Modelled from the spec: an affine map of [./Matrix4] (not in src), "an
    affine-transform type exposing: point mapping and an is
    orientation-reversing predicate", here the maps that scale each axis and
    then translate: x' = scale.x * x + offset.x, ... *)
Record Scaling := mkScaling { scale : Vector3D num; offset : Vector3D num }.

Definition apply (m : Scaling) (v : Vector3D num) : Vector3D num :=
  Vector3D.Create (Vector3D._x (scale m) * Vector3D._x v + Vector3D._x (offset m))%num
                  (Vector3D._y (scale m) * Vector3D._y v + Vector3D._y (offset m))%num
                  (Vector3D._z (scale m) * Vector3D._z v + Vector3D._z (offset m))%num.

(** The determinant of the linear part; a mirroring map is one with "a
    negative determinant on the linear part". *)
Definition determinant (m : Scaling) : num :=
  (Vector3D._x (scale m) * Vector3D._y (scale m) * Vector3D._z (scale m))%num.

Definition unit (v : Vector3D num) : Vector3D num :=
  let l := Vector3D.length v in
  Vector3D.Create (Vector3D._x v / l)%num (Vector3D._y v / l)%num (Vector3D._z v / l)%num.

(** Modelled from the spec: the "derive from three points" factory of
    [./Plane] (not in src), giving "a unit normal and a scalar offset": the
    plane through [a], [b], [c], its normal by the right-hand rule. *)
Definition fromVector3Ds (a b c : Vector3D num) : Plane num :=
  let n := unit (Vector3D.cross (Vector3D.minus b a) (Vector3D.minus c a)) in
  Plane.Create n (Vector3D.dot n a).

(** Modelled from the spec: the affine transform of a plane ([./Plane], not
    in src): the image of one of its points, and the normal mapped by the
    inverse transpose of the linear part, which keeps it on the side the
    reversed loop of a mirrored polygon winds about. *)
Definition plane_transform (pl : Plane num) (m : Scaling) : Plane num :=
  let s := scale m in
  let n := Plane.normal pl in
  let n' := unit (Vector3D.Create (Vector3D._x n / Vector3D._x s)%num
                                  (Vector3D._y n / Vector3D._y s)%num
                                  (Vector3D._z n / Vector3D._z s)%num) in
  Plane.Create n' (Vector3D.dot n' (apply m (Vector3D.times n (Plane.w pl)))).

#[export] Instance Scaling_Matrix4x4 : Matrix4x4Ops num Scaling := {|
  isMirroring := fun m => negb (determinant m >=? num_zero)%num;
  translation := fun o => mkScaling (Vector3D.Create num_one num_one num_one) o
|}.

#[export] Instance Vertex3_VertexLike : VertexLike num Scaling Vertex3 := {|
  pos := vpos;
  Vertex_flipped := fun v => v;
  Vertex_transform := fun v m => mkVertex (apply m (vpos v))
|}.

#[export] Instance Scaling_PlaneOps : PlaneOps num Scaling := {|
  Plane_transform := plane_transform;
  Plane_fromVector3Ds := fromVector3Ds
|}.

(** The vertex list [Polygon3.createFromPoints] builds from raw points. *)
Definition points (ps : list (num * num * num)) : list Vertex3 :=
  (fun p => mkVertex (Vector3D.Create p.1.1 p.1.2 p.2)) <$> ps.

(** Raw points are coordinate triples; the plain record of a vertex is its
    coordinate triple and the plain record of a plane its normal and offset. *)
#[export] Instance Vertex3_FromPoint : FromPoint num Vertex3 (num * num * num) := {|
  new_Vector3D := fun p => Vector3D.Create p.1.1 p.1.2 p.2;
  new_Vertex := mkVertex
|}.

#[export] Instance Vertex3_FromObject
  : FromObject num Vertex3 (num * num * num) (Vector3D num * num) := {|
  Vertex_fromObject := fun p => mkVertex (Vector3D.Create p.1.1 p.1.2 p.2);
  Plane_fromObject := fun o => Plane.Create o.1 o.2
|}.
End impl.
Arguments Vertex3 : clear implicits.
Arguments Scaling : clear implicits.

(** Modelled from the spec: the two configurations of [../constants] (not
    in src), "validation is disabled (default/non-diagnostic mode)" and the
    diagnostic one; EPS is "a small positive epsilon", left to the caller. *)
Definition production (num : Type) (eps : num) : Constants num :=
  {| _CSGDEBUG := false; EPS := eps |}.
Definition debug (num : Type) (eps : num) : Constants num :=
  {| _CSGDEBUG := true; EPS := eps |}.

(** [Number::toString(x)] of ECMA-262 in radix 10, the string that
    [Array.prototype.join] makes of a number: the shortest decimal
    s * 10^(n-k), of k digits, that converts back to [x], the closest to [x]
    when there are several, written plainly for -6 < n <= 21 and with an
    exponent otherwise.  All comparisons are exact, on integers. *)

(** The order of the decimal s * 10^p and the binary a * 2^e. *)
Definition compare_scaled (s p a e : Z) : comparison :=
  (s * 10 ^ Z.max p 0 * 2 ^ Z.max (- e) 0 ?= a * 2 ^ Z.max e 0 * 10 ^ Z.max (- p) 0)%Z.

(** The n with 10^(n-1) <= a * 2^e < 10^n, searched from the estimate [n]. *)
Fixpoint decimal_exponent (fuel : nat) (n a e : Z) : Z :=
  match fuel with
  | O => n
  | S fuel' =>
      match compare_scaled 1 (n - 1) a e, compare_scaled 1 n a e with
      | Gt, _ => decimal_exponent fuel' (n - 1)%Z a e
      | _, Gt => n
      | _, _ => decimal_exponent fuel' (n + 1)%Z a e
      end
  end.

(** s * 10^p converts to the double whose rounding interval is
    (lo * 2^e, hi * 2^e), the end points included when its mantissa is even. *)
Definition rounds_to (inclusive : bool) (lo hi e s p : Z) : bool :=
  match compare_scaled s p lo e, compare_scaled s p hi e with
  | Gt, Lt => true
  | Eq, Lt | Gt, Eq => inclusive
  | _, _ => false
  end.

(** The decimal of [k] digits next to x * 2^e that converts back to it, if
    there is one, as (s, n). *)
Definition nearest_decimal (inclusive : bool) (x lo hi e n k : Z) : option (Z * Z) :=
  let p := (n - k)%Z in
  let below :=
    (x * 2 ^ Z.max e 0 * 10 ^ Z.max (- p) 0 / (10 ^ Z.max p 0 * 2 ^ Z.max (- e) 0))%Z in
  let above := (below + 1)%Z in
  let s :=
    match rounds_to inclusive lo hi e below p, rounds_to inclusive lo hi e above p with
    | true, true =>
        match compare_scaled (2 * below + 1) p (2 * x) e with
        | Gt => Some below
        | Lt => Some above
        | Eq => Some (if Z.even below then below else above)
        end
    | true, false => Some below
    | false, true => Some above
    | false, false => None
    end in
  match s with
  | Some s => Some (if (s =? 10 ^ k)%Z then (10 ^ (k - 1), n + 1) else (s, n))%Z
  | None => None
  end.

(** The least number of digits that does; seventeen always do. *)
Fixpoint shortest_decimal (fuel : nat) (k : Z) (inclusive : bool) (x lo hi e n : Z)
  : Z * Z :=
  match fuel with
  | O => (0, 0)%Z
  | S fuel' =>
      match nearest_decimal inclusive x lo hi e n k with
      | Some r => r
      | None => shortest_decimal fuel' (k + 1)%Z inclusive x lo hi e n
      end
  end.

Fixpoint zeros (n : nat) : string :=
  match n with
  | O => ""
  | S n' => String "0" (zeros n')
  end.

Definition format_decimal (s n : Z) : string :=
  let digits := pretty s in
  let k := Z.of_nat (String.length digits) in
  if ((k <=? n) && (n <=? 21))%Z then digits +:+ zeros (Z.to_nat (n - k))
  else if ((0 <? n) && (n <=? 21))%Z then
    String.substring 0 (Z.to_nat n) digits +:+ "."
    +:+ String.substring (Z.to_nat n) (Z.to_nat (k - n)) digits
  else if ((-6 <? n) && (n <=? 0))%Z then "0." +:+ zeros (Z.to_nat (- n)) +:+ digits
  else
    let exponent := (if (n - 1 <? 0)%Z then "-" else "+") +:+ pretty (Z.abs (n - 1)) in
    if (k =? 1)%Z then digits +:+ "e" +:+ exponent
    else String.substring 0 1 digits +:+ "." +:+ String.substring 1 (Z.to_nat (k - 1)) digits
         +:+ "e" +:+ exponent.

(** A finite double is m * 2^e; in units of 2^(e-2) it is 4m, the midpoint
    to the next double is 4m + 2, and the midpoint to the previous one is
    4m - 2, or 4m - 1 where the previous double lies in the binade below. *)
Definition Number_toString (x : float) : string :=
  match Prim2SF x with
  | S754_nan => "NaN"
  | S754_zero _ => "0"
  | S754_infinity sign => if sign then "-Infinity" else "Infinity"
  | S754_finite sign m e =>
      let boundary := ((Zpos m =? 2 ^ 52) && (-1074 <? e))%Z in
      let x := (4 * Zpos m)%Z in
      let lo := (if boundary then x - 1 else x - 2)%Z in
      let hi := (x + 2)%Z in
      let n := decimal_exponent 700 ((Z.log2 x + e - 2) * 30103 / 100000) x (e - 2) in
      let '(s, n') := shortest_decimal 17 1 (Z.even (Zpos m)) x lo hi (e - 2) n in
      (if sign then "-" else "") +:+ format_decimal s n'
  end.

Definition float_toString : NumberToString float :=
  {| num_toString := Number_toString |}.
End Collaborators.

(** ** Vocabulary of the statements *)

Section vocabulary.
Context {num : Type} `{Number num} `{Constants num}.
Context {Matrix4x4 Vertex : Type}.
Context `{Matrix4x4Ops num Matrix4x4} `{VertexLike num Matrix4x4 Vertex}.
Context `{PlaneOps num Matrix4x4}.

Local Abbreviation Polygon3 := (Polygon3 num Vertex).
Local Abbreviation heap := (heap num Vertex).

(** [h'] is [h] with one more polygon, [q], at the unused location [l]. *)
Definition allocated (h h' : heap) (l : loc) (q : Polygon3) : Prop :=
  polygons h !! l = None /\
  polygons h' = <[l := q]> (polygons h) /\
  shareds h' = shareds h.

(** The constructor's debug validation does not reject this loop: validation
    is off, or the loop passes [verticesConvex]. *)
Definition validated (vertices : list Vertex) (plane : Plane num) : Prop :=
  _CSGDEBUG = true -> verticesConvex vertices (Plane.normal plane) = OK true.

(** The position of vertex [i], the origin past the end of the loop. *)
Definition posn (vertices : list Vertex) (i : nat) : Vector3D num :=
  match vertices !! i with
  | Some v => pos v
  | None => Vector3D.Create num_zero num_zero num_zero
  end.

(** The corner test of the claim at loop index [i], on the triple
    (prev, cur, next) = (v[i-2], v[i-1], v[i]) with indices wrapping around:
    (cur - prev) x (next - cur) . planeNormal >= 0. *)
Definition corner_convex (vertices : list Vertex) (planenormal : Vector3D num)
    (i : nat) : bool :=
  let n := length vertices in
  let prev := posn vertices ((i + n - 2) mod n) in
  let cur := posn vertices ((i + n - 1) mod n) in
  let next := posn vertices i in
  (Vector3D.dot (Vector3D.cross (Vector3D.minus cur prev) (Vector3D.minus next cur))
                planenormal >=? num_zero)%num.

(** Every corner of a loop of three vertices or more is convex; shorter
    loops have no corner to test. *)
Definition convex_loop (vertices : list Vertex) (planenormal : Vector3D num) : bool :=
  if 2 <? length vertices
  then forallb (corner_convex vertices planenormal) (seq 0 (length vertices))
  else true.

(** A sum taken in index order, starting from 0. *)
Definition num_sum (terms : list num) : num := foldl num_add num_zero terms.

(** Halving is exact along the running total of [terms]: the total after a
    term, halved, is the halved total before it plus half the term.  It
    always is in exact arithmetic; on doubles it is as long as no half is
    rounded. *)
Definition halving_exact (terms : list num) : Prop :=
  (num_zero / num_two = num_zero)%num /\
  forall k x, terms !! k = Some x ->
    ((num_sum (take k terms) + x) / num_two
     = num_sum (take k terms) / num_two + x / num_two)%num.

(** The scalar triple product v0 . (v[i+1] x v[i+2]). *)
Definition triple_product (vertices : list Vertex) (i : nat) : num :=
  Vector3D.dot (posn vertices 0)
               (Vector3D.cross (posn vertices (i + 1)) (posn vertices (i + 2))).

(** The cross product (v[i+1] - v0) x (v[i+2] - v[i+1]) of fan triangle [i]. *)
Definition fan_cross (vertices : list Vertex) (i : nat) : Vector3D num :=
  Vector3D.cross (Vector3D.minus (posn vertices (i + 1)) (posn vertices 0))
                 (Vector3D.minus (posn vertices (i + 2)) (posn vertices (i + 1))).

(** What one name of a feature list contributes to the batched query. *)
Definition feature_value (volume area : num) (feature : string) : option num :=
  if String.eqb feature "volume" then Some volume
  else if String.eqb feature "area" then Some area
  else None.

(** The bounds the loop of [boundingBox] accumulates, and the sphere
    [boundingSphere] derives from a box. *)
Definition box_of (vertices : list Vertex) : Vector3D num * Vector3D num :=
  match vertices with
  | [] => (Vector3D.Create num_zero num_zero num_zero,
           Vector3D.Create num_zero num_zero num_zero)
  | v :: rest =>
      foldl (fun box u => (Vector3D.min box.1 (pos u), Vector3D.max box.2 (pos u)))
            (pos v, pos v) rest
  end.

Definition sphere_of (box : Vector3D num * Vector3D num) : Vector3D num * num :=
  let middle := Vector3D.times (Vector3D.plus box.1 box.2) num_half in
  (middle, Vector3D.length (Vector3D.minus box.2 middle)).

(** The numbers of [xs] are comparable: on them [>=] is transitive, and
    [Math.min] and [Math.max] return one of their two arguments, the former
    one that is below both and the latter one that is above both.  A list of
    doubles that holds a NaN is not comparable. *)
Definition comparable (xs : list num) : Prop :=
  (forall x y z, x ∈ xs -> y ∈ xs -> z ∈ xs ->
     (y >=? x)%num = true -> (z >=? y)%num = true -> (z >=? x)%num = true) /\
  (forall a b, a ∈ xs -> b ∈ xs ->
     (Math_min a b = a \/ Math_min a b = b) /\
     (a >=? Math_min a b)%num = true /\ (b >=? Math_min a b)%num = true /\
     (Math_max a b = a \/ Math_max a b = b) /\
     (Math_max a b >=? a)%num = true /\ (Math_max a b >=? b)%num = true).

(** [m] is an element of [xs] that no element is below, or above. *)
Definition lowest (m : num) (xs : list num) : Prop :=
  m ∈ xs /\ forall x, x ∈ xs -> (x >=? m)%num = true.
Definition highest (m : num) (xs : list num) : Prop :=
  m ∈ xs /\ forall x, x ∈ xs -> (m >=? x)%num = true.

(** A cache, once filled, holds what the query computed from the vertices. *)
Definition caches_valid (p : Polygon3) : Prop :=
  (forall box, cachedBoundingBox p = Some box -> box = box_of (vertices p)) /\
  (forall sphere, cachedBoundingSphere p = Some sphere ->
     sphere = sphere_of (box_of (vertices p))).

(** Every polygon of the heap has valid caches. *)
Definition heap_valid (h : heap) : Prop :=
  forall l p, polygons h !! l = Some p -> caches_valid p.

(** The outcome of [Shared.fromColor] by the number of components of the
    assembled color: three get alpha 1 appended, four are kept, any other
    count is the arity error. *)
Definition fromColor_checked (color : list (jsval num)) : M num Vertex loc :=
  match length color with
  | 3 => alloc_shared (mkShared (Some (color ++ [Num num_one])))
  | 4 => alloc_shared (mkShared (Some color))
  | _ => throw (Error "setColor expects either an array with 3 or 4 elements, or 3 or 4 parameters.")
  end.
End vocabulary.

(** Least and greatest element of a list of reals. *)
Definition is_least (m : R) (xs : list R) : Prop :=
  m ∈ xs /\ forall x, x ∈ xs -> (m <= x)%R.
Definition is_greatest (m : R) (xs : list R) : Prop :=
  m ∈ xs /\ forall x, x ∈ xs -> (x <= m)%R.

(** The three coordinates of a vector. *)
Definition coordinates {num : Type} : list (Vector3D num -> num) :=
  [Vector3D._x; Vector3D._y; Vector3D._z].

(** Every shared record of the heap has no color or a color of four
    components. *)
Definition shareds_valid {num Vertex : Type} (h : heap num Vertex) : Prop :=
  forall l s, shareds h !! l = Some s ->
    color s = None \/ exists c, color s = Some c /\ length c = 4.

(** The string contains the separator of [getHash]. *)
Fixpoint has_slash (s : string) : bool :=
  match s with
  | EmptyString => false
  | String c s' => Ascii.eqb c "/"%char || has_slash s'
  end.

(** A loop index [i] and its mirror image [n + 1 - i] modulo [n]: the corner
    at [i] of a reversed loop is the corner at the mirror image of the
    original one. *)
Definition mirror_index (n i : nat) : nat := (n + 1 - i) mod n.

(** ** Scenarios *)

Module Scenario.
Import Collaborators.

(** The triangle (0,0,0), (0,10,0), (0,10,10) of the examples in the source. *)
Definition triangle {num : Type} `{Number num} (ten : num) : list (Vertex3 num) :=
  points [(num_zero, num_zero, num_zero); (num_zero, ten, num_zero); (num_zero, ten, ten)].

(** A dart in the same plane: its corner at (0,2,2) is reflex. *)
Definition dart {num : Type} `{Number num} (two ten : num) : list (Vertex3 num) :=
  points [(num_zero, num_zero, num_zero); (num_zero, ten, num_zero);
          (num_zero, two, two); (num_zero, num_zero, ten)].

(** The plane x = 0 with its normal along +x. *)
Definition plane_x {num : Type} `{Number num} : Plane num :=
  Plane.Create (Vector3D.Create num_one num_zero num_zero) num_zero.

(** The triangle as a polygon that has not been queried yet. *)
Definition triangle_polygon {num : Type} `{Number num} (ten : num)
  : Polygon3 num (Vertex3 num) :=
  mkPolygon3 (triangle ten) defaultShared plane_x None None.

(** Doubles, with the debug validation switched on. *)
Definition float_debug : Constants float :=
  debug float 0x1.4f8b588e368f1p-17%float.

#[local] Existing Instance float_debug.

(** The heap after [new Polygon3(triangle)] on the freshly loaded module. *)
Definition float_heap : heap float (Vertex3 float) :=
  (new_Polygon3 (triangle 10%float) None None module_heap).2.

(** The square (0,0,0), (0,10,0), (0,10,10), (0,0,10): two fan triangles. *)
Definition square {num : Type} `{Number num} (ten : num) : list (Vertex3 num) :=
  points [(num_zero, num_zero, num_zero); (num_zero, ten, num_zero);
          (num_zero, ten, ten); (num_zero, num_zero, ten)].

Definition square_polygon : Polygon3 float (Vertex3 float) :=
  mkPolygon3 (square 10%float) defaultShared plane_x None None.

(** The heap after [new Polygon3(square)] on top of the triangle. *)
Definition square_heap : heap float (Vertex3 float) :=
  (new_Polygon3 (square 10%float) None None float_heap).2.

(** Two triangles that wind the same way about +x, one in the plane x = 1
    and one in the plane x = -1, and the heap after constructing both. *)
Definition front_triangle : list (Vertex3 float) :=
  points [(1, 0, 0); (1, 10, 0); (1, 10, 10)]%float.
Definition back_triangle : list (Vertex3 float) :=
  points [(-1, 0, 0); (-1, 10, 0); (-1, 10, 10)]%float.

Definition facing_heap : heap float (Vertex3 float) :=
  (new_Polygon3 back_triangle None None
     (new_Polygon3 front_triangle None None module_heap).2).2.

(** The heap after [Shared.fromColor(1, 0, 0, 0.5)]. *)
Definition colored_heap : heap float (Vertex3 float) :=
  (Shared_fromColor [Num 1; Num 0; Num 0; Num 0.5]%float module_heap).2.

(** The mirror x -> -x. *)
Definition mirror_x : Scaling float :=
  mkScaling (Vector3D.Create (-1)%float 1%float 1%float)
            (Vector3D.Create 0%float 0%float 0%float).

(** The same heap over the reals. *)
Definition real_heap : heap R (Vertex3 R) :=
  mkHeap {[ 0 := triangle_polygon 10%R ]} {[ defaultShared := mkShared None ]}.

(** Reals, with the debug validation switched off. *)
Definition real_production : Constants R := production R (1 / 100000)%R.

(** A polygon of two vertices only, built with an explicit plane. *)
Definition segment_heap : heap R (Vertex3 R) :=
  mkHeap {[ 0 := mkPolygon3 (take 2 (triangle 10%R)) defaultShared plane_x None None ]}
         {[ defaultShared := mkShared None ]}.

(** The plain record of the triangle, with an opaque red color. *)
Definition triangle_object
  : PolygonObject float (float * float * float) (Vector3D float * float) :=
  mkPolygonObject
    [(0%float, 0%float, 0%float); (0%float, 10%float, 0%float);
     (0%float, 10%float, 10%float)]
    (mkSharedObject (Some [Num 1%float; Num 0%float; Num 0%float; Num 1%float]))
    (Vector3D.Create 1%float 0%float 0%float, 0%float).
End Scenario.

(** ** Running the heap monad *)

Section run.
Context {num : Type} {Vertex : Type}.

Local Abbreviation M := (M num Vertex).
Local Abbreviation heap := (heap num Vertex).

Lemma deref_Some (this : loc) (p : Polygon3 num Vertex) (h : heap) :
  polygons h !! this = Some p -> deref this h = (OK p, h).
Proof. intros Hp. unfold deref. now rewrite Hp. Qed.

Lemma alloc_polygon_fresh (p : Polygon3 num Vertex) (h : heap) :
  exists l h', alloc_polygon p h = (OK l, h') /\ allocated h h' l p.
Proof.
  exists (fresh (dom (polygons h))). eexists. split; [reflexivity|].
  repeat split. apply not_elem_of_dom, is_fresh.
Qed.

(** Allocation leaves every polygon that was there where it was. *)
Lemma allocated_frame (h h' : heap) (l this : loc) (q p : Polygon3 num Vertex) :
  allocated h h' l q -> polygons h !! this = Some p -> polygons h' !! this = Some p.
Proof.
  intros (Hl & Hh' & _) Hp. rewrite Hh'.
  rewrite lookup_insert_ne; [exact Hp|]. intros ->. congruence.
Qed.

Lemma allocated_new (h h' : heap) (l : loc) (q : Polygon3 num Vertex) :
  allocated h h' l q -> polygons h' !! l = Some q.
Proof. intros (_ & Hh' & _). rewrite Hh'. apply lookup_insert_eq. Qed.
End run.

(** ** Loops stay inside the vertex array *)

Section loops.
Context {num : Type} `{Number num} `{Constants num}.
Context {Matrix4x4 Vertex : Type}.
Context `{Matrix4x4Ops num Matrix4x4} `{VertexLike num Matrix4x4 Vertex}.
Context `{PlaneOps num Matrix4x4}.

Lemma pos_at_lt (vertices : list Vertex) (i : nat) :
  i < length vertices -> pos_at vertices i = OK (posn vertices i).
Proof.
  intros Hi. unfold pos_at, posn.
  destruct (lookup_lt_is_Some_2 vertices i Hi) as [v ->]. reflexivity.
Qed.

(** A loop whose body never throws on its range is the fold of its body. *)
Lemma for_loop_fold {A : Type} (body : nat -> A -> result A) (g : A -> nat -> A)
    (i count : nat) (acc : A) :
  (forall j a, i <= j < i + count -> body j a = OK (g a j)) ->
  for_loop i count body acc = OK (foldl g acc (seq i count)).
Proof.
  revert i acc. induction count as [|count IH]; intros i acc Hbody; [reflexivity|].
  cbn [for_loop seq foldl]. rewrite Hbody by lia. cbn [result_bind].
  apply IH. intros j a Hj. apply Hbody. lia.
Qed.

(** [verticesConvex_loop] from index [i] on, entered with the positions of
    the two vertices before [i] (cyclically), tests the corners [i], [i+1], ... *)
Lemma verticesConvex_loop_corners (vertices : list Vertex) (planenormal : Vector3D num)
    (i count : nat) (prevprevpos prevpos : Vector3D num) :
  let n := length vertices in
  3 <= n -> i + count = n ->
  prevprevpos = posn vertices ((i + n - 2) mod n) ->
  prevpos = posn vertices ((i + n - 1) mod n) ->
  verticesConvex_loop vertices planenormal i count prevprevpos prevpos
  = OK (forallb (corner_convex vertices planenormal) (seq i count)).
Proof.
  intros n Hn. revert i prevprevpos prevpos.
  induction count as [|count IH]; intros i pp p Hi Hpp Hp; [reflexivity|].
  cbn [verticesConvex_loop seq forallb].
  rewrite pos_at_lt by (fold n; lia). cbn [result_bind].
  assert (Hc : corner_convex vertices planenormal i
               = isConvexPoint pp p (posn vertices i) planenormal).
  { unfold corner_convex, isConvexPoint. fold n. now rewrite <- Hpp, <- Hp. }
  rewrite Hc. destruct (isConvexPoint pp p (posn vertices i) planenormal); cbn [negb andb].
  - apply IH; [lia| |].
    + rewrite Hp. now replace (S i + n - 2) with (i + n - 1) by lia.
    + replace (S i + n - 1) with (i + 1 * n) by lia.
      rewrite Nat.Div0.mod_add, Nat.mod_small by lia. reflexivity.
  - reflexivity.
Qed.

(** [verticesConvex] never throws: a loop of at most two vertices is convex,
    a longer one is convex when all its corners are. *)
Lemma verticesConvex_corners (vertices : list Vertex) (planenormal : Vector3D num) :
  verticesConvex vertices planenormal = OK (convex_loop vertices planenormal).
Proof.
  unfold verticesConvex, convex_loop. destruct (2 <? length vertices) eqn:Hn; [|reflexivity].
  apply Nat.ltb_lt in Hn.
  rewrite !pos_at_lt by lia. cbn [result_bind].
  apply verticesConvex_loop_corners; [lia|lia| |].
  - rewrite Nat.mod_small by lia. now replace (0 + length vertices - 2) with (length vertices - 2) by lia.
  - rewrite Nat.mod_small by lia. now replace (0 + length vertices - 1) with (length vertices - 1) by lia.
Qed.
End loops.

(** ** The constructor *)

Section constructor.
Context {num : Type} `{Number num} `{Constants num}.
Context {Matrix4x4 Vertex : Type}.
Context `{Matrix4x4Ops num Matrix4x4} `{VertexLike num Matrix4x4 Vertex}.
Context `{PlaneOps num Matrix4x4}.

Local Abbreviation heap := (heap num Vertex).

Lemma validated_convex_loop (vertices : list Vertex) (plane : Plane num) :
  validated vertices plane <->
  _CSGDEBUG && negb (convex_loop vertices (Plane.normal plane)) = false.
Proof.
  unfold validated. rewrite verticesConvex_corners.
  destruct _CSGDEBUG, (convex_loop vertices (Plane.normal plane)); cbn;
    split; intros Hv; try reflexivity; try (intros _; reflexivity);
    try discriminate; try (specialize (Hv eq_refl); discriminate).
Qed.

(** The constructor, once the plane is known: the new object is allocated,
    then the debug validation decides between returning it and throwing. *)
Lemma new_Polygon3_with_plane (vertices : list Vertex) (shared : option loc)
    (pl : Plane num) (h : heap) :
  exists l h',
    allocated h h' l (mkPolygon3 vertices (default defaultShared shared) pl None None) /\
    new_Polygon3 vertices shared (Some pl) h
    = (if _CSGDEBUG && negb (convex_loop vertices (Plane.normal pl))
       then Throw (Error "Not convex!") else OK l, h').
Proof.
  destruct (alloc_polygon_fresh
              (mkPolygon3 vertices (default defaultShared shared) pl None None) h)
    as (l & h' & Halloc & Hnew).
  exists l, h'. split; [exact Hnew|].
  unfold new_Polygon3, M_bind, ret. rewrite Halloc.
  destruct _CSGDEBUG; cbn [andb]; [|reflexivity].
  unfold checkIfConvex, M_bind, deref, lift.
  rewrite (allocated_new _ _ _ _ Hnew). cbn.
  rewrite verticesConvex_corners.
  destruct (convex_loop vertices (Plane.normal pl)); reflexivity.
Qed.

(** Without a plane argument the constructor reads [vertices[0].pos],
    [vertices[1].pos] and [vertices[2].pos] first. *)
Lemma new_Polygon3_derives_plane (vertices : list Vertex) (shared : option loc) (h : heap) :
  3 <= length vertices ->
  new_Polygon3 vertices shared None h
  = new_Polygon3 vertices shared
      (Some (Plane_fromVector3Ds (posn vertices 0) (posn vertices 1) (posn vertices 2))) h.
Proof.
  intros Hn. unfold new_Polygon3, M_bind, ret, lift.
  rewrite !pos_at_lt by lia. reflexivity.
Qed.

Lemma new_Polygon3_too_short (vertices : list Vertex) (shared : option loc) (h : heap) :
  length vertices < 3 ->
  new_Polygon3 vertices shared None h
  = (Throw (TypeError "Cannot read properties of undefined (reading 'pos')"), h).
Proof.
  intros Hn. unfold new_Polygon3, M_bind, ret, lift.
  destruct vertices as [|v0 [|v1 [|v2 rest]]]; cbn in Hn; try lia; reflexivity.
Qed.

(** C10 (implicit, Polygon3 constructor).  Called without a plane, the
    constructor derives the plane from the positions of the first three
    vertices, so it fails (reading [pos] of [undefined]) on every vertex
    list shorter than three; on a list of three or more it builds the
    polygon with the plane [Plane.fromVector3Ds(v0.pos, v1.pos, v2.pos)].
    Called with an explicit plane it never reads past the list: for any
    vertex list the polygon is allocated with that plane, and the call
    returns it unless the debug validation is on and rejects the loop as
    not convex; with validation off it succeeds for every list. *)
Theorem constructor_plane_argument :
  (forall (vertices : list Vertex) (shared : option loc) (h : heap),
     length vertices < 3 ->
     new_Polygon3 vertices shared None h
     = (Throw (TypeError "Cannot read properties of undefined (reading 'pos')"), h)) /\
  (forall (vertices : list Vertex) (shared : option loc) (h : heap),
     3 <= length vertices ->
     let derived :=
       Plane_fromVector3Ds (posn vertices 0) (posn vertices 1) (posn vertices 2) in
     exists l h',
       allocated h h' l
         (mkPolygon3 vertices (default defaultShared shared) derived None None) /\
       (validated vertices derived ->
        new_Polygon3 vertices shared None h = (OK l, h'))) /\
  (forall (vertices : list Vertex) (shared : option loc) (pl : Plane num) (h : heap),
     exists l h',
       allocated h h' l
         (mkPolygon3 vertices (default defaultShared shared) pl None None) /\
       (validated vertices pl ->
        new_Polygon3 vertices shared (Some pl) h = (OK l, h')) /\
       (~ validated vertices pl ->
        new_Polygon3 vertices shared (Some pl) h = (Throw (Error "Not convex!"), h')) /\
       (_CSGDEBUG = false ->
        new_Polygon3 vertices shared (Some pl) h = (OK l, h'))).
Proof.
  split; [|split].
  - intros vertices shared h Hn. now apply new_Polygon3_too_short.
  - intros vertices shared h Hn derived.
    destruct (new_Polygon3_with_plane vertices shared derived h) as (l & h' & Ha & Hnew).
    exists l, h'. split; [exact Ha|]. intros Hv.
    rewrite new_Polygon3_derives_plane by exact Hn. fold derived. rewrite Hnew.
    apply validated_convex_loop in Hv. now rewrite Hv.
  - intros vertices shared pl h.
    destruct (new_Polygon3_with_plane vertices shared pl h) as (l & h' & Ha & Hnew).
    exists l, h'. split; [exact Ha|]. rewrite Hnew. split; [|split].
    + intros Hv. apply validated_convex_loop in Hv. now rewrite Hv.
    + intros Hv. rewrite validated_convex_loop in Hv.
      now destruct (_CSGDEBUG && negb (convex_loop vertices (Plane.normal pl))).
    + intros ->. reflexivity.
Qed.
End constructor.

(** ** Transform and flip *)

Section transform_flip.
Context {num : Type} `{Number num} `{Constants num}.
Context {Matrix4x4 Vertex : Type}.
Context `{Matrix4x4Ops num Matrix4x4} `{VertexLike num Matrix4x4 Vertex}.
Context `{PlaneOps num Matrix4x4}.

Local Abbreviation heap := (heap num Vertex).
Local Abbreviation Polygon3 := (Polygon3 num Vertex).

(** C1 (Polygon3.prototype.transform).  On a polygon [p], [transform(M)]
    allocates a new polygon whose plane is the plane of [p] transformed by
    [M] and whose vertices are the vertices of [p], each transformed by [M]:
    in reversed order when [M.isMirroring()] holds, in the original order
    otherwise.  The shared record is passed on by reference and the receiver
    is left as it was.  (The constructor's debug validation, when switched
    on, must accept the new loop.) *)
Theorem transform_maps_vertices_and_plane (h : heap) (this : loc) (p : Polygon3)
    (matrix4x4 : Matrix4x4) :
  let mapped := (fun v => Vertex_transform v matrix4x4) <$> vertices p in
  let newplane := Plane_transform (plane p) matrix4x4 in
  polygons h !! this = Some p ->
  validated (if isMirroring matrix4x4 then reverse mapped else mapped) newplane ->
  exists l h' q,
    transform this matrix4x4 h = (OK l, h') /\
    allocated h h' l q /\
    plane q = newplane /\
    (isMirroring matrix4x4 = true -> vertices q = reverse mapped) /\
    (isMirroring matrix4x4 = false -> vertices q = mapped) /\
    shared q = shared p /\
    polygons h' !! this = Some p.
Proof.
  intros mapped newplane Hp Hv.
  destruct (new_Polygon3_with_plane
              (if isMirroring matrix4x4 then reverse mapped else mapped)
              (Some (shared p)) newplane h) as (l & h' & Ha & Hnew).
  apply validated_convex_loop in Hv. rewrite Hv in Hnew.
  exists l, h'. eexists. split; [|split; [exact Ha|]].
  - unfold transform, M_bind at 1. rewrite (deref_Some _ _ _ Hp). exact Hnew.
  - cbn. repeat split.
    + now intros ->.
    + now intros ->.
    + exact (allocated_frame _ _ _ _ _ _ Ha Hp).
Qed.

(** C2 (Polygon3.prototype.flipped).  On a polygon [p], [flipped()]
    allocates a new polygon whose vertices are the vertices of [p], each
    flipped, in reversed order, and whose plane is the plane of [p] flipped:
    normal and offset negated.  Flipping the result once more gives a polygon
    with the vertex positions of [p] in their original order and the plane
    normal of [p], provided flipping a vertex leaves its position alone and
    negation of numbers is an involution.  (The constructor's debug
    validation, when switched on, must accept the new loops.) *)
Theorem flipped_reverses_and_negates (h : heap) (this : loc) (p : Polygon3) :
  let flippedvertices := reverse (Vertex_flipped <$> vertices p) in
  polygons h !! this = Some p ->
  validated flippedvertices (Plane.flipped (plane p)) ->
  exists l h' q,
    flipped this h = (OK l, h') /\
    allocated h h' l q /\
    vertices q = flippedvertices /\
    plane q = Plane.flipped (plane p) /\
    Plane.normal (plane q) = Vector3D.negated (Plane.normal (plane p)) /\
    Plane.w (plane q) = (- Plane.w (plane p))%num /\
    shared q = shared p /\
    polygons h' !! this = Some p /\
    ((forall v : Vertex, pos (Vertex_flipped v) = pos v) ->
     (forall x : num, (- - x)%num = x) ->
     validated (reverse (Vertex_flipped <$> flippedvertices))
               (Plane.flipped (Plane.flipped (plane p))) ->
     exists l2 h2 q2,
       flipped l h' = (OK l2, h2) /\
       allocated h' h2 l2 q2 /\
       pos <$> vertices q2 = pos <$> vertices p /\
       Plane.normal (plane q2) = Plane.normal (plane p)).
Proof.
  intros flippedvertices Hp Hv.
  assert (Hflip : forall (h : heap) (this : loc) (p : Polygon3),
    polygons h !! this = Some p ->
    validated (reverse (Vertex_flipped <$> vertices p)) (Plane.flipped (plane p)) ->
    exists l h',
      flipped this h = (OK l, h') /\
      allocated h h' l (mkPolygon3 (reverse (Vertex_flipped <$> vertices p)) (shared p)
                                   (Plane.flipped (plane p)) None None)).
  { clear. intros h this p Hp Hv.
    destruct (new_Polygon3_with_plane (reverse (Vertex_flipped <$> vertices p))
                (Some (shared p)) (Plane.flipped (plane p)) h) as (l & h' & Ha & Hnew).
    apply validated_convex_loop in Hv. rewrite Hv in Hnew.
    exists l, h'. split; [|exact Ha].
    unfold flipped, M_bind at 1. rewrite (deref_Some _ _ _ Hp). exact Hnew. }
  destruct (Hflip h this p Hp Hv) as (l & h' & Hrun & Ha).
  exists l, h'. eexists. split; [exact Hrun|]. split; [exact Ha|].
  cbn. repeat split.
  - exact (allocated_frame _ _ _ _ _ _ Ha Hp).
  - intros Hpos Hneg Hv2.
    destruct (Hflip h' l _ (allocated_new _ _ _ _ Ha) Hv2) as (l2 & h2 & Hrun2 & Ha2).
    exists l2, h2. eexists. split; [exact Hrun2|]. split; [exact Ha2|].
    cbn [vertices plane Plane.flipped Plane.normal]. split.
    + unfold flippedvertices. rewrite !fmap_reverse, reverse_involutive.
      rewrite <- !list_fmap_compose. apply list_fmap_ext.
      intros i v _. cbn. now rewrite !Hpos.
    + destruct (Plane.normal (plane p)) as [x y z]. unfold Vector3D.negated. cbn.
      now rewrite !Hneg.
Qed.
End transform_flip.

(** ** Convexity *)

Section convexity.
Context {num : Type} `{Number num} `{Constants num}.
Context {Matrix4x4 Vertex : Type}.
Context `{Matrix4x4Ops num Matrix4x4} `{VertexLike num Matrix4x4 Vertex}.
Context `{PlaneOps num Matrix4x4}.

(** C3 (Polygon3.verticesConvex, isConvexPoint, isStrictlyConvexPoint).
    [verticesConvex] returns true for every loop of at most two vertices.
    For a loop of n >= 3 vertices it returns the conjunction of the corner
    tests at i = 0 .. n-1, the test at i being
    (cur - prev) x (next - cur) . planeNormal >= 0 on the triple
    (v[i-2], v[i-1], v[i]) with indices taken modulo n (so the walk starts
    with the last two vertices as previous context); hence it returns true
    exactly when every such triple passes.  [isConvexPoint] is that test
    against 0 and [isStrictlyConvexPoint] the same test against EPS. *)
Theorem verticesConvex_iff_all_corners :
  (forall (vertices : list Vertex) (planenormal : Vector3D num),
     length vertices <= 2 -> verticesConvex vertices planenormal = OK true) /\
  (forall (vertices : list Vertex) (planenormal : Vector3D num),
     3 <= length vertices ->
     verticesConvex vertices planenormal
     = OK (forallb (corner_convex vertices planenormal) (seq 0 (length vertices))) /\
     (verticesConvex vertices planenormal = OK true <->
      forall i, i < length vertices ->
        let n := length vertices in
        let prev := posn vertices ((i + n - 2) mod n) in
        let cur := posn vertices ((i + n - 1) mod n) in
        let next := posn vertices i in
        (Vector3D.dot (Vector3D.cross (Vector3D.minus cur prev) (Vector3D.minus next cur))
                      planenormal >=? num_zero)%num = true)) /\
  (forall prevpoint point nextpoint normal : Vector3D num,
     isConvexPoint prevpoint point nextpoint normal
     = (Vector3D.dot (Vector3D.cross (Vector3D.minus point prevpoint)
                                     (Vector3D.minus nextpoint point)) normal
        >=? num_zero)%num) /\
  (forall prevpoint point nextpoint normal : Vector3D num,
     isStrictlyConvexPoint prevpoint point nextpoint normal
     = (Vector3D.dot (Vector3D.cross (Vector3D.minus point prevpoint)
                                     (Vector3D.minus nextpoint point)) normal
        >=? EPS)%num).
Proof.
  split; [|split; [|split]].
  - intros vertices planenormal Hn. rewrite verticesConvex_corners.
    unfold convex_loop. destruct (Nat.ltb_spec 2 (length vertices)); [lia|reflexivity].
  - intros vertices planenormal Hn.
    assert (Hrun : verticesConvex vertices planenormal
                   = OK (forallb (corner_convex vertices planenormal)
                                 (seq 0 (length vertices)))).
    { rewrite verticesConvex_corners. unfold convex_loop.
      destruct (Nat.ltb_spec 2 (length vertices)); [reflexivity|lia]. }
    split; [exact Hrun|]. rewrite Hrun. split.
    + intros Hall i Hi. injection Hall as Hall.
      rewrite forallb_forall in Hall. apply (Hall i). apply in_seq. lia.
    + intros Hall. f_equal. apply forallb_forall. intros i Hi.
      apply in_seq in Hi. apply Hall. lia.
  - reflexivity.
  - reflexivity.
Qed.
End convexity.

(** ** Measures *)

Section measures.
Context {num : Type} `{Number num} `{Constants num}.
Context {Matrix4x4 Vertex : Type}.
Context `{Matrix4x4Ops num Matrix4x4} `{VertexLike num Matrix4x4 Vertex}.
Context `{PlaneOps num Matrix4x4}.

Local Abbreviation heap := (heap num Vertex).
Local Abbreviation Polygon3 := (Polygon3 num Vertex).

Lemma foldl_add_fmap (f : nat -> num) (l : list nat) (acc : num) :
  foldl (fun a j => (a + f j)%num) acc l = foldl num_add acc (f <$> l).
Proof. revert acc. induction l as [|j l IH]; intros acc; [reflexivity|]. cbn. apply IH. Qed.

(** [getSignedVolume] never throws and leaves the heap alone: it adds the
    triple products in index order and divides by 6. *)
Lemma getSignedVolume_run (h : heap) (this : loc) (p : Polygon3) :
  polygons h !! this = Some p ->
  getSignedVolume this h
  = (OK (num_sum (triple_product (vertices p) <$> seq 0 (length (vertices p) - 2))
         / num_six)%num, h).
Proof.
  intros Hp. unfold getSignedVolume, M_bind at 1. rewrite (deref_Some _ _ _ Hp).
  unfold M_bind, lift, ret.
  rewrite (for_loop_fold _ (fun a j => (a + triple_product (vertices p) j)%num)).
  - now rewrite foldl_add_fmap.
  - intros j a Hj. rewrite !pos_at_lt by lia. reflexivity.
Qed.

(** [getArea] never throws and leaves the heap alone: it adds the lengths of
    the fan cross products in index order and halves the total. *)
Lemma getArea_run (h : heap) (this : loc) (p : Polygon3) :
  polygons h !! this = Some p ->
  getArea this h
  = (OK (num_sum ((fun i => Vector3D.length (fan_cross (vertices p) i))
                  <$> seq 0 (length (vertices p) - 2))
         / num_two)%num, h).
Proof.
  intros Hp. unfold getArea, M_bind at 1. rewrite (deref_Some _ _ _ Hp).
  unfold M_bind, lift, ret.
  rewrite (for_loop_fold _
             (fun a j => (a + Vector3D.length (fan_cross (vertices p) j))%num)).
  - now rewrite foldl_add_fmap.
  - intros j a Hj. rewrite !pos_at_lt by lia. reflexivity.
Qed.

Lemma num_sum_snoc (terms : list num) (x : num) :
  num_sum (terms ++ [x]) = (num_sum terms + x)%num.
Proof. unfold num_sum. now rewrite foldl_app. Qed.

(** Where halving is exact, the halved sum is the sum of the halves. *)
Lemma num_sum_halves (terms : list num) :
  halving_exact terms ->
  (num_sum terms / num_two)%num = num_sum ((fun x => x / num_two)%num <$> terms).
Proof.
  induction terms as [|x terms IH] using rev_ind; intros [Hzero Hstep]; [exact Hzero|].
  rewrite fmap_app, !num_sum_snoc. cbn [fmap list_fmap]. rewrite num_sum_snoc, <- IH.
  - specialize (Hstep (length terms) x). rewrite take_app_length in Hstep.
    apply Hstep. now rewrite list_lookup_middle.
  - split; [exact Hzero|]. intros k y Hy.
    pose proof (lookup_lt_Some _ _ _ Hy) as Hk.
    specialize (Hstep k y). rewrite take_app_le in Hstep by lia.
    apply Hstep. now rewrite lookup_app_l.
Qed.

Lemma posn_fmap (vertices : list Vertex) (i : nat) :
  posn vertices i
  = default (Vector3D.Create num_zero num_zero num_zero) ((pos <$> vertices) !! i).
Proof. unfold posn. rewrite list_lookup_fmap. now destruct (vertices !! i). Qed.

(** C5 (Polygon3.prototype.getSignedVolume), amended.  For every polygon of
    three vertices or more, [getSignedVolume()] returns the sum over
    i = 0 .. n-3, taken in index order, of the scalar triple products
    v0 . (v[i+1] x v[i+2]) of the vertex positions, divided by 6; it does not
    throw and does not touch the heap.  This holds in the arithmetic of
    every number type, doubles included.  Nothing is said of the sign: it is
    the sign of that sum, which the orientation of the loop about the plane
    normal does not fix. *)
Theorem getSignedVolume_fan_tetrahedra (h : heap) (this : loc) (p : Polygon3) :
  polygons h !! this = Some p ->
  3 <= length (vertices p) ->
  getSignedVolume this h
  = (OK (num_sum ((fun i => Vector3D.dot (posn (vertices p) 0)
                              (Vector3D.cross (posn (vertices p) (i + 1))
                                              (posn (vertices p) (i + 2))))
                  <$> seq 0 (length (vertices p) - 2))
         / num_six)%num, h).
Proof.
  intros Hp _. unfold getSignedVolume, M_bind at 1. rewrite (deref_Some _ _ _ Hp).
  unfold M_bind, lift, ret.
  rewrite (for_loop_fold _
             (fun a j => (a + Vector3D.dot (posn (vertices p) 0)
                                (Vector3D.cross (posn (vertices p) (j + 1))
                                                (posn (vertices p) (j + 2))))%num)).
  - now rewrite foldl_add_fmap.
  - intros j a Hj. rewrite !pos_at_lt by lia. reflexivity.
Qed.

Lemma getTetraFeatures_forEach_run (h : heap) (this : loc)
    (volume area : num) (features : list string) (result : list num) :
  getSignedVolume this h = (OK volume, h) ->
  getArea this h = (OK area, h) ->
  getTetraFeatures_forEach this features result h
  = (OK (result ++ omap (feature_value volume area) features), h).
Proof.
  intros Hvol Harea. revert result.
  induction features as [|feature features IH]; intros result.
  - cbn. unfold ret. now rewrite app_nil_r.
  - cbn [getTetraFeatures_forEach omap list_omap]. unfold feature_value at 1.
    unfold M_bind at 1.
    destruct (String.eqb feature "volume").
    + unfold M_bind at 1. rewrite Hvol. unfold ret at 1. rewrite IH.
      now rewrite <- app_assoc.
    + destruct (String.eqb feature "area").
      * unfold M_bind at 1. rewrite Harea. unfold ret at 1. rewrite IH.
        now rewrite <- app_assoc.
      * unfold ret at 1. apply IH.
Qed.

(** C8 (Polygon3.prototype.getTetraFeatures).  For every list of feature
    names the batched query returns, without throwing and without touching
    the heap, the list that holds the value of [getSignedVolume()] for each
    "volume" and the value of [getArea()] for each "area", in the order of
    the names; every other name contributes no entry. *)
Theorem getTetraFeatures_keeps_known_names (h : heap) (this : loc) (p : Polygon3) :
  polygons h !! this = Some p ->
  exists volume area : num,
    getSignedVolume this h = (OK volume, h) /\
    getArea this h = (OK area, h) /\
    forall features : list string,
      getTetraFeatures this features h
      = (OK (omap (fun feature =>
                     if String.eqb feature "volume" then Some volume
                     else if String.eqb feature "area" then Some area
                     else None) features), h).
Proof.
  intros Hp. eexists. eexists.
  split; [exact (getSignedVolume_run h this p Hp)|].
  split; [exact (getArea_run h this p Hp)|].
  intros features. unfold getTetraFeatures.
  rewrite (getTetraFeatures_forEach_run h this _ _ features []
             (getSignedVolume_run h this p Hp) (getArea_run h this p Hp)).
  reflexivity.
Qed.
End measures.

(** C4 (Polygon3.prototype.getArea).  For every polygon of three vertices or
    more, [getArea()] returns the fan-triangulated area from vertex 0: the
    magnitudes of (v[i+1] - v0) x (v[i+2] - v[i+1]) for i = 0 .. n-3, summed
    in index order and then halved; it does not throw and does not touch the
    heap.  This holds in the arithmetic of every number type, doubles
    included.  Where halving is exact along the running total, the result is
    the sum over i of half the magnitude.  On doubles, for the triangle with
    vertex positions (0,0,0), (0,10,0), (0,10,10) it returns 50. *)
Theorem getArea_fan_triangulation :
  (forall (num : Type) (Hnum : Number num) (Matrix4x4 Vertex : Type)
          (Hvertex : VertexLike num Matrix4x4 Vertex)
          (h : heap num Vertex) (this : loc) (p : Polygon3 num Vertex),
     let magnitudes :=
       (fun i => Vector3D.length
                   (Vector3D.cross
                      (Vector3D.minus (posn (vertices p) (i + 1)) (posn (vertices p) 0))
                      (Vector3D.minus (posn (vertices p) (i + 2))
                                      (posn (vertices p) (i + 1)))))
         <$> seq 0 (length (vertices p) - 2) in
     polygons h !! this = Some p ->
     3 <= length (vertices p) ->
     getArea this h = (OK (num_sum magnitudes / num_two)%num, h) /\
     (halving_exact magnitudes ->
      getArea this h
      = (OK (num_sum ((fun magnitude => magnitude / num_two)%num <$> magnitudes)), h))) /\
  (forall (Matrix4x4 Vertex : Type) (Hvertex : VertexLike float Matrix4x4 Vertex)
          (h : heap float Vertex) (this : loc) (p : Polygon3 float Vertex),
     polygons h !! this = Some p ->
     pos <$> vertices p
     = [Vector3D.Create 0 0 0; Vector3D.Create 0 10 0; Vector3D.Create 0 10 10]%float ->
     getArea this h = (OK 50%float, h)).
Proof.
  split.
  - intros num Hnum Matrix4x4 Vertex Hvertex h this p magnitudes Hp _.
    pose proof (getArea_run h this p Hp) as Hrun. split; [exact Hrun|].
    intros Hexact. rewrite Hrun. do 2 f_equal. exact (num_sum_halves _ Hexact).
  - intros Matrix4x4 Vertex Hvertex h this p Hp Hpos. rewrite (getArea_run _ _ _ Hp).
    assert (Hn : length (vertices p) = 3).
    { rewrite <- (length_fmap pos), Hpos. reflexivity. }
    rewrite Hn. cbn [Nat.sub seq fmap list_fmap]. unfold fan_cross.
    rewrite !posn_fmap, Hpos. do 2 f_equal.
Qed.

(** ** Bounding volumes *)

Section bounds.
Context {num : Type} `{Number num} `{Constants num}.
Context {Matrix4x4 Vertex : Type}.
Context `{Matrix4x4Ops num Matrix4x4} `{VertexLike num Matrix4x4 Vertex}.
Context `{PlaneOps num Matrix4x4}.

Local Abbreviation heap := (heap num Vertex).
Local Abbreviation Polygon3 := (Polygon3 num Vertex).

Lemma assign_Some (h : heap) (this : loc) (p : Polygon3) (f : Polygon3 -> Polygon3) :
  polygons h !! this = Some p ->
  assign this f h = (OK tt, mkHeap (<[this := f p]> (polygons h)) (shareds h)).
Proof. intros Hp. unfold assign. now rewrite Hp. Qed.

(** Folding over the indices 1 .. n-1 of an array is folding over its tail. *)
Lemma foldl_indices {A : Type} (g : A -> Vector3D num -> A) (pre rest : list Vertex)
    (acc : A) :
  foldl (fun a j => g a (posn (pre ++ rest) j)) acc (seq (length pre) (length rest))
  = foldl (fun a u => g a (pos u)) acc rest.
Proof.
  revert pre acc. induction rest as [|u rest IH]; intros pre acc; [reflexivity|].
  cbn [length seq foldl].
  replace (posn (pre ++ u :: rest) (length pre)) with (pos u).
  - specialize (IH (pre ++ [u]) (g acc (pos u))).
    rewrite <- app_assoc, length_app in IH. cbn in IH.
    now replace (length pre + 1) with (S (length pre)) in IH by lia.
  - unfold posn. now rewrite list_lookup_middle.
Qed.

(** The loop of [boundingBox] computes [box_of]. *)
Lemma boundingBox_loop (vertices : list Vertex) :
  (minpoint <- (if length vertices =? 0
                then OK (Vector3D.Create num_zero num_zero num_zero)
                else pos_at vertices 0);;
   for_loop 1 (length vertices - 1) (fun i '(minpoint, maxpoint) =>
     point <- pos_at vertices i;;
     OK (Vector3D.min minpoint point, Vector3D.max maxpoint point))
     (minpoint, minpoint))%res
  = OK (box_of vertices).
Proof.
  destruct vertices as [|v rest]; [reflexivity|].
  cbn [length Nat.eqb]. rewrite pos_at_lt by (cbn; lia). cbn [result_bind].
  rewrite (for_loop_fold _
             (fun box j => (Vector3D.min box.1 (posn (v :: rest) j),
                            Vector3D.max box.2 (posn (v :: rest) j)))).
  - replace (S (length rest) - 1) with (length rest) by lia.
    f_equal. exact (foldl_indices (fun box u => (Vector3D.min box.1 u, Vector3D.max box.2 u))
                      [v] rest (posn (v :: rest) 0, posn (v :: rest) 0)).
  - intros j [minpoint maxpoint] Hj. rewrite pos_at_lt by (cbn [length]; lia). reflexivity.
Qed.

(** [boundingBox] returns [box_of] of the vertices and changes nothing but
    the box cache of the receiver. *)
Lemma boundingBox_run (h : heap) (this : loc) (p : Polygon3) :
  polygons h !! this = Some p -> caches_valid p ->
  boundingBox this h
  = (OK (box_of (vertices p)),
     mkHeap (<[this := set_cachedBoundingBox (box_of (vertices p)) p]> (polygons h))
            (shareds h)).
Proof.
  intros Hp [Hbox _]. unfold boundingBox, M_bind at 1. rewrite (deref_Some _ _ _ Hp).
  destruct (cachedBoundingBox p) as [box|] eqn:Hcache.
  - rewrite (Hbox box eq_refl) in *. unfold ret. f_equal.
    destruct h as [ps ss]. cbn in *. f_equal.
    rewrite insert_id; [reflexivity|]. rewrite Hp. f_equal.
    destruct p. cbn in *. now rewrite Hcache.
  - pose proof (boundingBox_loop (vertices p)) as Hloop.
    unfold M_bind, lift, ret.
    destruct (if length (vertices p) =? 0
              then OK (Vector3D.Create num_zero num_zero num_zero)
              else pos_at (vertices p) 0) as [minpoint|e]; cbn [result_bind] in Hloop;
      [|discriminate].
    rewrite Hloop. now rewrite (assign_Some _ _ _ _ Hp).
Qed.

(** [boundingSphere] returns [sphere_of] of the box and changes nothing but
    the two caches of the receiver. *)
Lemma boundingSphere_run (h : heap) (this : loc) (p : Polygon3) :
  polygons h !! this = Some p -> caches_valid p ->
  exists p',
    boundingSphere this h
    = (OK (sphere_of (box_of (vertices p))),
       mkHeap (<[this := p']> (polygons h)) (shareds h)) /\
    vertices p' = vertices p /\ shared p' = shared p /\ plane p' = plane p /\
    caches_valid p'.
Proof.
  intros Hp Hvalid. unfold boundingSphere, M_bind at 1. rewrite (deref_Some _ _ _ Hp).
  destruct (cachedBoundingSphere p) as [sphere|] eqn:Hcache.
  - exists p. rewrite (proj2 Hvalid sphere Hcache). unfold ret.
    destruct h as [ps ss]. cbn in *. rewrite insert_id by exact Hp. auto.
  - exists (set_cachedBoundingSphere (sphere_of (box_of (vertices p)))
              (set_cachedBoundingBox (box_of (vertices p)) p)).
    unfold M_bind at 1. rewrite (boundingBox_run _ _ _ Hp Hvalid).
    unfold M_bind. erewrite assign_Some by (cbn; apply lookup_insert_eq).
    unfold ret. cbn [polygons shareds]. rewrite insert_insert_eq.
    split; [reflexivity|]. repeat split; cbn; congruence.
Qed.

(** The caches stay valid along every method that writes to the receiver. *)
Lemma caches_valid_new (vertices : list Vertex) (shared : loc) (pl : Plane num) :
  caches_valid (mkPolygon3 vertices shared pl None None).
Proof. split; cbn; discriminate. Qed.

Lemma caches_valid_boundingBox (p : Polygon3) :
  caches_valid p -> caches_valid (set_cachedBoundingBox (box_of (vertices p)) p).
Proof. intros [_ Hs]. split; cbn; [congruence|exact Hs]. Qed.

(** Each coordinate of the bounds is a fold of [Math.min] or [Math.max] over
    that coordinate of the positions. *)
Lemma box_of_folds (c : Vector3D num -> num) (v : Vertex) (rest : list Vertex) :
  (forall a b, c (Vector3D.min a b) = Math_min (c a) (c b)) ->
  (forall a b, c (Vector3D.max a b) = Math_max (c a) (c b)) ->
  c (box_of (v :: rest)).1 = foldl Math_min (c (pos v)) (c ∘ pos <$> rest) /\
  c (box_of (v :: rest)).2 = foldl Math_max (c (pos v)) (c ∘ pos <$> rest).
Proof.
  intros Hmin Hmax. cbn [box_of].
  assert (Hgen : forall a b : Vector3D num,
    let box := foldl (fun box u => (Vector3D.min box.1 (pos u), Vector3D.max box.2 (pos u)))
                     (a, b) rest in
    c box.1 = foldl Math_min (c a) (c ∘ pos <$> rest) /\
    c box.2 = foldl Math_max (c b) (c ∘ pos <$> rest)).
  { induction rest as [|u rest IH]; intros a b; [split; reflexivity|].
    cbn [foldl fmap list_fmap fst snd].
    destruct (IH (Vector3D.min a (pos u)) (Vector3D.max b (pos u))) as [IH1 IH2].
    cbn zeta in IH1, IH2. cbn zeta. rewrite IH1, IH2, Hmin, Hmax. split; reflexivity. }
  apply Hgen.
Qed.

Lemma comparable_subseteq (xs ys : list num) :
  (forall x, x ∈ ys -> x ∈ xs) -> comparable xs -> comparable ys.
Proof.
  intros Hsub [Htrans Hpick]. split.
  - intros x y z Hx Hy Hz. apply Htrans; now apply Hsub.
  - intros a b Ha Hb. apply Hpick; now apply Hsub.
Qed.

(** Over comparable numbers the fold of [Math.min] is a lowest element and
    the fold of [Math.max] a highest one. *)
Lemma foldl_Math_min_lowest (x0 : num) (xs : list num) :
  comparable (x0 :: xs) -> lowest (foldl Math_min x0 xs) (x0 :: xs).
Proof.
  revert x0. induction xs as [|x xs IH]; intros x0 Hc.
  - split; [apply list_elem_of_here|]. intros y Hy.
    apply list_elem_of_singleton in Hy as ->.
    destruct (proj2 Hc x0 x0 (list_elem_of_here _ _) (list_elem_of_here _ _))
      as ([Heq|Heq] & Hge & _); now rewrite Heq in Hge.
  - cbn [foldl]. pose proof Hc as [Htrans Hpick].
    assert (Hx0 : x0 ∈ x0 :: x :: xs) by apply list_elem_of_here.
    assert (Hx : x ∈ x0 :: x :: xs) by apply list_elem_of_further, list_elem_of_here.
    destruct (Hpick x0 x Hx0 Hx) as (Hsel & Hge0 & Hge1 & _).
    assert (Hin : Math_min x0 x ∈ x0 :: x :: xs) by (destruct Hsel as [-> | ->]; assumption).
    assert (Hsub : forall y, y ∈ Math_min x0 x :: xs -> y ∈ x0 :: x :: xs).
    { intros y Hy. apply elem_of_cons in Hy as [->|Hy]; [exact Hin|].
      now do 2 apply list_elem_of_further. }
    destruct (IH (Math_min x0 x) (comparable_subseteq _ _ Hsub Hc)) as [Hm Hle].
    split; [now apply Hsub|]. intros y Hy.
    pose proof (Hle _ (list_elem_of_here _ _)) as Hbelow.
    apply elem_of_cons in Hy as [->|Hy];
      [exact (Htrans _ _ _ (Hsub _ Hm) Hin Hx0 Hbelow Hge0)|].
    apply elem_of_cons in Hy as [->|Hy];
      [exact (Htrans _ _ _ (Hsub _ Hm) Hin Hx Hbelow Hge1)|].
    apply Hle. now apply list_elem_of_further.
Qed.

Lemma foldl_Math_max_highest (x0 : num) (xs : list num) :
  comparable (x0 :: xs) -> highest (foldl Math_max x0 xs) (x0 :: xs).
Proof.
  revert x0. induction xs as [|x xs IH]; intros x0 Hc.
  - split; [apply list_elem_of_here|]. intros y Hy.
    apply list_elem_of_singleton in Hy as ->.
    destruct (proj2 Hc x0 x0 (list_elem_of_here _ _) (list_elem_of_here _ _))
      as (_ & _ & _ & [Heq|Heq] & Hge & _); now rewrite Heq in Hge.
  - cbn [foldl]. pose proof Hc as [Htrans Hpick].
    assert (Hx0 : x0 ∈ x0 :: x :: xs) by apply list_elem_of_here.
    assert (Hx : x ∈ x0 :: x :: xs) by apply list_elem_of_further, list_elem_of_here.
    destruct (Hpick x0 x Hx0 Hx) as (_ & _ & _ & Hsel & Hge0 & Hge1).
    assert (Hin : Math_max x0 x ∈ x0 :: x :: xs) by (destruct Hsel as [-> | ->]; assumption).
    assert (Hsub : forall y, y ∈ Math_max x0 x :: xs -> y ∈ x0 :: x :: xs).
    { intros y Hy. apply elem_of_cons in Hy as [->|Hy]; [exact Hin|].
      now do 2 apply list_elem_of_further. }
    destruct (IH (Math_max x0 x) (comparable_subseteq _ _ Hsub Hc)) as [Hm Hle].
    split; [now apply Hsub|]. intros y Hy.
    pose proof (Hle _ (list_elem_of_here _ _)) as Habove.
    apply elem_of_cons in Hy as [->|Hy];
      [exact (Htrans _ _ _ Hx0 Hin (Hsub _ Hm) Hge0 Habove)|].
    apply elem_of_cons in Hy as [->|Hy];
      [exact (Htrans _ _ _ Hx Hin (Hsub _ Hm) Hge1 Habove)|].
    apply Hle. now apply list_elem_of_further.
Qed.

(** C6 (Polygon3.prototype.boundingBox, boundingSphere).  On a polygon whose
    caches are empty or hold what the queries stored there, [boundingBox()]
    returns the component-wise minimum and maximum of all vertex positions:
    each coordinate of the two corners is [Math.min], respectively
    [Math.max], folded over that coordinate of the positions, which is the
    lowest, respectively the highest, of them where they are comparable; for
    no vertex both corners are the origin.  [boundingSphere()] returns the
    midpoint (min + max) * 0.5 of the two corners and the distance from it
    to the max corner.  Neither throws.  This holds in the arithmetic of
    every number type, doubles included. *)
Theorem bounding_box_and_sphere (h : heap) (this : loc) (p : Polygon3) :
  polygons h !! this = Some p ->
  caches_valid p ->
  exists (minpoint maxpoint : Vector3D num) (h' : heap),
    boundingBox this h = (OK (minpoint, maxpoint), h') /\
    (vertices p = [] ->
     minpoint = Vector3D.Create num_zero num_zero num_zero /\
     maxpoint = Vector3D.Create num_zero num_zero num_zero) /\
    (forall v rest, vertices p = v :: rest ->
     Forall (fun c : Vector3D num -> num =>
               c minpoint = foldl Math_min (c (pos v)) (c ∘ pos <$> rest) /\
               c maxpoint = foldl Math_max (c (pos v)) (c ∘ pos <$> rest) /\
               (comparable (c ∘ pos <$> vertices p) ->
                lowest (c minpoint) (c ∘ pos <$> vertices p) /\
                highest (c maxpoint) (c ∘ pos <$> vertices p)))
            coordinates) /\
    exists (center : Vector3D num) (radius : num) (h'' : heap),
      boundingSphere this h = (OK (center, radius), h'') /\
      center = Vector3D.times (Vector3D.plus minpoint maxpoint) num_half /\
      radius = Vector3D.length (Vector3D.minus maxpoint center).
Proof.
  intros Hp Hvalid.
  destruct (box_of (vertices p)) as [minpoint maxpoint] eqn:Hbox.
  exists minpoint, maxpoint. eexists.
  split; [rewrite (boundingBox_run _ _ _ Hp Hvalid), Hbox; reflexivity|].
  split; [|split].
  - intros Hnil. rewrite Hnil in Hbox. cbn in Hbox. now injection Hbox as <- <-.
  - intros v rest Hvertices. rewrite Hvertices in *.
    assert (Hc : forall c : Vector3D num -> num,
              (forall a b, c (Vector3D.min a b) = Math_min (c a) (c b)) ->
              (forall a b, c (Vector3D.max a b) = Math_max (c a) (c b)) ->
              c minpoint = foldl Math_min (c (pos v)) (c ∘ pos <$> rest) /\
              c maxpoint = foldl Math_max (c (pos v)) (c ∘ pos <$> rest) /\
              (comparable (c ∘ pos <$> v :: rest) ->
               lowest (c minpoint) (c ∘ pos <$> v :: rest) /\
               highest (c maxpoint) (c ∘ pos <$> v :: rest))).
    { intros c Hmin Hmax.
      destruct (box_of_folds c v rest Hmin Hmax) as [Hlo Hhi].
      rewrite Hbox in Hlo, Hhi. cbn [fst snd] in Hlo, Hhi.
      split; [exact Hlo|]. split; [exact Hhi|]. intros Hcomparable.
      rewrite Hlo, Hhi.
      split; [now apply foldl_Math_min_lowest|now apply foldl_Math_max_highest]. }
    unfold coordinates. do 3 (constructor; [apply Hc; reflexivity|]). constructor.
  - destruct (boundingSphere_run _ _ _ Hp Hvalid) as (p' & Hrun & _).
    rewrite Hbox in Hrun. eexists. eexists. eexists.
    split; [exact Hrun|]. split; reflexivity.
Qed.

End bounds.

(** ** Sums and bounds of real numbers *)

Ltac real_ops :=
  cbn [num_zero num_one num_two num_six num_half num_add num_sub num_mul num_div
       num_neg num_ge Math_sqrt Math_min Math_max Number_R] in *.

Section reals.
Context `{Constants R}.
Context {Matrix4x4 Vertex : Type}.
Context `{Matrix4x4Ops R Matrix4x4} `{VertexLike R Matrix4x4 Vertex}.
Context `{PlaneOps R Matrix4x4}.

Local Abbreviation heap := (heap R Vertex).
Local Abbreviation Polygon3 := (Polygon3 R Vertex).

(** Every list of reals is comparable. *)
Lemma comparable_reals (xs : list R) : comparable xs.
Proof.
  split.
  - intros x y z _ _ _. real_ops.
    destruct (Rle_dec x y), (Rle_dec y z), (Rle_dec x z);
      intros; try reflexivity; try discriminate; lra.
  - intros a b _ _. real_ops. unfold Rmin, Rmax.
    destruct (Rle_dec a b);
      repeat split; auto;
      match goal with |- (if Rle_dec ?u ?v then _ else _) = _ =>
        destruct (Rle_dec u v); [reflexivity|lra] end.
Qed.

Lemma num_sum_sign (k : R) (l : list R) :
  (forall x, x ∈ l -> (0 <= x * k)%R) -> (0 <= num_sum l * k)%R.
Proof.
  unfold num_sum. real_ops.
  assert (Hgen : forall acc : R, (0 <= acc * k)%R ->
            (forall x, x ∈ l -> (0 <= x * k)%R) -> (0 <= foldl Rplus acc l * k)%R).
  { induction l as [|x l IH]; intros acc Hacc Hl; [exact Hacc|].
    cbn. apply IH.
    - pose proof (Hl x (list_elem_of_here _ _)). lra.
    - intros y Hy. apply Hl. now apply list_elem_of_further. }
  intros Hl. apply Hgen; [lra|exact Hl].
Qed.

(** The coordinates of the bounds are folds of [Rmin] and [Rmax]. *)
Lemma box_of_coordinate (c : Vector3D R -> R) (v : Vertex) (rest : list Vertex) :
  (forall a b, c (Vector3D.min a b) = Rmin (c a) (c b)) ->
  (forall a b, c (Vector3D.max a b) = Rmax (c a) (c b)) ->
  c (box_of (v :: rest)).1 = foldl Rmin (c (pos v)) (c ∘ pos <$> rest) /\
  c (box_of (v :: rest)).2 = foldl Rmax (c (pos v)) (c ∘ pos <$> rest).
Proof.
  intros Hmin Hmax. cbn [box_of].
  assert (Hgen : forall a b : Vector3D R,
    let box := foldl (fun box u => (Vector3D.min box.1 (pos u), Vector3D.max box.2 (pos u)))
                     (a, b) rest in
    c box.1 = foldl Rmin (c a) (c ∘ pos <$> rest) /\
    c box.2 = foldl Rmax (c b) (c ∘ pos <$> rest)).
  { induction rest as [|u rest IH]; intros a b; [split; reflexivity|].
    cbn [foldl fmap list_fmap fst snd].
    destruct (IH (Vector3D.min a (pos u)) (Vector3D.max b (pos u))) as [IH1 IH2].
    cbn zeta in IH1, IH2. cbn zeta. rewrite IH1, IH2, Hmin, Hmax. split; reflexivity. }
  apply Hgen.
Qed.

Lemma foldl_Rmin_least (x0 : R) (xs : list R) : is_least (foldl Rmin x0 xs) (x0 :: xs).
Proof.
  revert x0. induction xs as [|x xs IH]; intros x0.
  - split; [apply list_elem_of_here|]. intros y Hy.
    apply list_elem_of_singleton in Hy. subst. cbn. lra.
  - cbn [foldl]. destruct (IH (Rmin x0 x)) as [Hin Hle]. split.
    + apply elem_of_cons in Hin as [Heq|Hin].
      * rewrite Heq. unfold Rmin. destruct (Rle_dec x0 x).
        -- apply list_elem_of_here.
        -- apply list_elem_of_further, list_elem_of_here.
      * now do 2 apply list_elem_of_further.
    + intros y Hy. pose proof (Hle (Rmin x0 x) (list_elem_of_here _ _)) as Hm.
      pose proof (Rmin_l x0 x). pose proof (Rmin_r x0 x).
      apply elem_of_cons in Hy as [->|Hy]; [lra|].
      apply elem_of_cons in Hy as [->|Hy]; [lra|].
      apply Hle. now apply list_elem_of_further.
Qed.

Lemma foldl_Rmax_greatest (x0 : R) (xs : list R) :
  is_greatest (foldl Rmax x0 xs) (x0 :: xs).
Proof.
  revert x0. induction xs as [|x xs IH]; intros x0.
  - split; [apply list_elem_of_here|]. intros y Hy.
    apply list_elem_of_singleton in Hy. subst. cbn. lra.
  - cbn [foldl]. destruct (IH (Rmax x0 x)) as [Hin Hle]. split.
    + apply elem_of_cons in Hin as [Heq|Hin].
      * rewrite Heq. unfold Rmax. destruct (Rle_dec x0 x).
        -- apply list_elem_of_further, list_elem_of_here.
        -- apply list_elem_of_here.
      * now do 2 apply list_elem_of_further.
    + intros y Hy. pose proof (Hle (Rmax x0 x) (list_elem_of_here _ _)) as Hm.
      pose proof (Rmax_l x0 x). pose proof (Rmax_r x0 x).
      apply elem_of_cons in Hy as [->|Hy]; [lra|].
      apply elem_of_cons in Hy as [->|Hy]; [lra|].
      apply Hle. now apply list_elem_of_further.
Qed.

End reals.

(** ** Shared records and setColor *)

Section shared_color.
Context {num : Type} `{Number num} `{Constants num}.
Context {Matrix4x4 Vertex : Type}.
Context `{Matrix4x4Ops num Matrix4x4} `{VertexLike num Matrix4x4 Vertex}.
Context `{PlaneOps num Matrix4x4}.

Local Abbreviation heap := (heap num Vertex).
Local Abbreviation Polygon3 := (Polygon3 num Vertex).
Local Abbreviation M := (M num Vertex).

Lemma push_all {A : Type} (arguments color : list A) :
  foldl (fun color a => color ++ [a]) color arguments = color ++ arguments.
Proof.
  revert color. induction arguments as [|a arguments IH]; intros color; cbn.
  - now rewrite app_nil_r.
  - rewrite IH. now rewrite <- app_assoc.
Qed.

(** Loading the module allocates the default shared record, with no color,
    at [defaultShared]. *)
Lemma defaultShared_allocated :
  new_Shared None (mkHeap ∅ ∅) = (OK defaultShared, module_heap : heap) /\
  shareds (module_heap : heap) !! defaultShared = Some (mkShared None).
Proof. split; reflexivity. Qed.

(** The constructor accepts [null] and arrays of exactly four components. *)
Lemma new_Shared_arity (color : list (jsval num)) (h : heap) :
  new_Shared (Some color) h
  = if length color =? 4 then alloc_shared (mkShared (Some color)) h
    else (Throw (Error "Expecting 4 element array"), h).
Proof. unfold new_Shared. now destruct (length color =? 4). Qed.

(** [Shared.fromColor] on a single array and on any number of arguments
    other than one: three components get alpha 1 appended, four are kept,
    every other count is rejected with the arity error. *)
Lemma Shared_fromColor_arity :
  (forall (a : list num) (h : heap),
     Shared_fromColor [Arr a] h = fromColor_checked (Num <$> a) h) /\
  (forall (arguments : list (jsval num)) (h : heap),
     length arguments <> 1 ->
     Shared_fromColor arguments h = fromColor_checked arguments h).
Proof.
  assert (Hchecked : forall (color : list (jsval num)) (h : heap),
    M_bind (if length color =? 3 then ret (color ++ [Num num_one])
            else if negb (length color =? 4) then
              throw (Error "setColor expects either an array with 3 or 4 elements, or 3 or 4 parameters.")
            else ret color)
           (fun color => new_Shared (Some color)) h
    = fromColor_checked color h).
  { intros color h. unfold fromColor_checked, M_bind.
    destruct (length color) as [|[|[|[|[|n]]]]] eqn:Hlen; cbn; try reflexivity.
    - rewrite length_app, Hlen. reflexivity.
    - rewrite Hlen. reflexivity. }
  split.
  - intros a h. unfold Shared_fromColor. unfold M_bind at 1. cbn [ret].
    apply Hchecked.
  - intros arguments h Hlen. unfold Shared_fromColor. unfold M_bind at 1.
    destruct arguments as [|a [|b rest]]; [| cbn in Hlen; lia |];
      cbn [ret]; rewrite push_all; apply Hchecked.
Qed.

(** A lone argument is always taken for the color array: when it is a
    number, calling [slice] on it throws a [TypeError] before the arity
    check is reached. *)
Lemma Shared_fromColor_lone_number (n : num) (h : heap) :
  Shared_fromColor [Num n] h
  = (Throw (TypeError "arguments[0].slice is not a function"), h).
Proof. reflexivity. Qed.

(** [setColor] builds a new shared record and stores it in the receiver. *)
Lemma setColor_run (h h1 : heap) (this newshared : loc) (p : Polygon3)
    (arguments : list (jsval num)) :
  polygons h !! this = Some p ->
  Shared_fromColor arguments h = (OK newshared, h1) ->
  polygons h1 = polygons h ->
  setColor this arguments h
  = (OK this, mkHeap (<[this := set_shared newshared p]> (polygons h)) (shareds h1)).
Proof.
  intros Hp Hcolor Hsame. unfold setColor, M_bind. rewrite Hcolor.
  rewrite (assign_Some h1 this p) by now rewrite Hsame.
  now rewrite Hsame.
Qed.

(** X1 (Polygon3.prototype methods).  Apart from [setColor], no method
    writes to the vertices, the shared reference or the plane of its
    receiver: the measures leave the heap as it is, [transform], [translate]
    and [flipped] only allocate, whether they return or throw, and the
    bounds queries only fill the caches. *)
Lemma receiver_frame (h : heap) (this : loc) (p : Polygon3) :
  polygons h !! this = Some p ->
  caches_valid p ->
  (getSignedVolume this h).2 = h /\
  (getArea this h).2 = h /\
  (forall features, (getTetraFeatures this features h).2 = h) /\
  (forall matrix4x4, polygons (transform this matrix4x4 h).2 !! this = Some p) /\
  (forall offset, polygons (translate this offset h).2 !! this = Some p) /\
  polygons (flipped this h).2 !! this = Some p /\
  (exists p', polygons (boundingBox this h).2 !! this = Some p' /\
     vertices p' = vertices p /\ shared p' = shared p /\ plane p' = plane p) /\
  (exists p', polygons (boundingSphere this h).2 !! this = Some p' /\
     vertices p' = vertices p /\ shared p' = shared p /\ plane p' = plane p).
Proof.
  intros Hp Hvalid.
  assert (Hnew : forall vs s pl,
            polygons (new_Polygon3 vs s (Some pl) h).2 !! this = Some p).
  { intros vs s pl. destruct (new_Polygon3_with_plane vs s pl h) as (l & h' & Ha & ->).
    exact (allocated_frame _ _ _ _ _ _ Ha Hp). }
  assert (Htransform : forall matrix4x4,
            polygons (transform this matrix4x4 h).2 !! this = Some p).
  { intros matrix4x4. unfold transform, M_bind at 1. rewrite (deref_Some _ _ _ Hp).
    apply Hnew. }
  pose proof (getSignedVolume_run h this p Hp) as Hvol.
  pose proof (getArea_run h this p Hp) as Harea.
  repeat split.
  - now rewrite Hvol.
  - now rewrite Harea.
  - intros features. unfold getTetraFeatures.
    now rewrite (getTetraFeatures_forEach_run h this _ _ features [] Hvol Harea).
  - exact Htransform.
  - intros offset. apply Htransform.
  - unfold flipped, M_bind at 1. rewrite (deref_Some _ _ _ Hp). apply Hnew.
  - rewrite (boundingBox_run _ _ _ Hp Hvalid). eexists. split.
    + cbn [snd polygons]. apply lookup_insert_eq.
    + auto.
  - destruct (boundingSphere_run _ _ _ Hp Hvalid) as (p' & -> & Hfields).
    exists p'. split; [cbn [snd polygons]; apply lookup_insert_eq|].
    destruct Hfields as (? & ? & ? & _). auto.
Qed.
End shared_color.

(** ** The caches are valid in every reachable heap *)

Section invariant.
Context {num : Type} `{Number num} `{Constants num}.
Context {Matrix4x4 Vertex : Type}.
Context `{Matrix4x4Ops num Matrix4x4} `{VertexLike num Matrix4x4 Vertex}.
Context `{PlaneOps num Matrix4x4}.

Local Abbreviation heap := (heap num Vertex).
Local Abbreviation Polygon3 := (Polygon3 num Vertex).

Lemma deref_None {A : Type} (this : loc) (k : Polygon3 -> M num Vertex A) (h : heap) :
  polygons h !! this = None -> (M_bind (deref this) k h).2 = h.
Proof. intros Hp. unfold M_bind, deref. now rewrite Hp. Qed.

Lemma heap_valid_insert (h : heap) (l : loc) (q : Polygon3) (ss : gmap loc (Shared num)) :
  heap_valid h -> caches_valid q -> heap_valid (mkHeap (<[l := q]> (polygons h)) ss).
Proof.
  intros Hh Hq l' p. cbn [polygons]. rewrite lookup_insert.
  case_decide; [now intros [= <-]|apply Hh].
Qed.

Lemma heap_valid_module : heap_valid (module_heap (num := num) (Vertex := Vertex)).
Proof. intros l p. cbn. now rewrite lookup_empty. Qed.

Lemma heap_valid_new_Polygon3 (h : heap) (vertices : list Vertex) (shared : option loc)
    (pl : option (Plane num)) :
  heap_valid h -> heap_valid (new_Polygon3 vertices shared pl h).2.
Proof.
  intros Hh.
  assert (Hplane : forall pl, heap_valid (new_Polygon3 vertices shared (Some pl) h).2).
  { intros pl'. destruct (new_Polygon3_with_plane vertices shared pl' h)
      as (l & h' & (_ & Hps & _) & ->).
    cbn [snd]. intros l' p. rewrite Hps. rewrite lookup_insert.
    case_decide; [intros [= <-]; apply caches_valid_new|apply Hh]. }
  destruct pl as [pl|]; [apply Hplane|].
  destruct (Nat.lt_ge_cases (length vertices) 3) as [Hn|Hn].
  - now rewrite new_Polygon3_too_short.
  - rewrite new_Polygon3_derives_plane by exact Hn. apply Hplane.
Qed.

Lemma Shared_fromColor_polygons (h : heap) (arguments : list (jsval num)) :
  polygons (Shared_fromColor arguments h).2 = polygons h.
Proof.
  assert (Hchecked : forall color, polygons (fromColor_checked color h).2 = polygons h).
  { intros color. unfold fromColor_checked.
    destruct (length color) as [|[|[|[|[|n]]]]]; reflexivity. }
  destruct arguments as [|[n|a] [|b rest]].
  - rewrite (proj2 Shared_fromColor_arity) by (cbn; lia). apply Hchecked.
  - reflexivity.
  - rewrite (proj2 Shared_fromColor_arity) by (cbn; lia). apply Hchecked.
  - rewrite (proj1 Shared_fromColor_arity). apply Hchecked.
  - rewrite (proj2 Shared_fromColor_arity) by (cbn; lia). apply Hchecked.
Qed.

(** X2 (Polygon3.prototype.boundingBox, boundingSphere, setColor).  The
    caches never go stale: when every filled cache of the heap holds what
    the bounds queries compute from the vertices, the same is true after any
    method of any polygon, whatever its arguments and whether it returns or
    throws. *)
Theorem heap_valid_preserved (h : heap) (this : loc) :
  heap_valid h ->
  (forall arguments, heap_valid (setColor this arguments h).2) /\
  heap_valid (getSignedVolume this h).2 /\
  heap_valid (getArea this h).2 /\
  (forall features, heap_valid (getTetraFeatures this features h).2) /\
  heap_valid (boundingBox this h).2 /\
  heap_valid (boundingSphere this h).2 /\
  heap_valid (flipped this h).2 /\
  (forall matrix4x4, heap_valid (transform this matrix4x4 h).2) /\
  (forall offset, heap_valid (translate this offset h).2).
Proof.
  intros Hh. destruct (polygons h !! this) as [p|] eqn:Hp.
  - pose proof (Hh this p Hp) as Hvalid.
    assert (Htransform : forall matrix4x4, heap_valid (transform this matrix4x4 h).2).
    { intros matrix4x4. unfold transform, M_bind at 1. rewrite (deref_Some _ _ _ Hp).
      now apply heap_valid_new_Polygon3. }
    repeat apply conj.
    + intros arguments. unfold setColor, M_bind at 1.
      pose proof (Shared_fromColor_polygons h arguments) as Hps.
      destruct (Shared_fromColor arguments h) as [[newshared|e] h1]; cbn [snd] in Hps.
      * unfold M_bind. rewrite (assign_Some h1 this p) by now rewrite Hps.
        cbn [snd]. rewrite Hps. apply heap_valid_insert; [exact Hh|exact Hvalid].
      * cbn [snd]. intros l q. rewrite Hps. apply Hh.
    + now rewrite (getSignedVolume_run _ _ _ Hp).
    + now rewrite (getArea_run _ _ _ Hp).
    + intros features. unfold getTetraFeatures.
      now rewrite (getTetraFeatures_forEach_run h this _ _ features []
                     (getSignedVolume_run _ _ _ Hp) (getArea_run _ _ _ Hp)).
    + rewrite (boundingBox_run _ _ _ Hp Hvalid). cbn [snd].
      apply heap_valid_insert; [exact Hh|now apply caches_valid_boundingBox].
    + destruct (boundingSphere_run _ _ _ Hp Hvalid) as (p' & -> & _ & _ & _ & Hp').
      cbn [snd]. now apply heap_valid_insert.
    + unfold flipped, M_bind at 1. rewrite (deref_Some _ _ _ Hp).
      now apply heap_valid_new_Polygon3.
    + exact Htransform.
    + intros offset. apply Htransform.
  - repeat apply conj; intros; unfold translate;
      try (unfold getSignedVolume, getArea, boundingBox, boundingSphere, flipped, transform;
           now rewrite deref_None).
    + unfold setColor, M_bind at 1.
      pose proof (Shared_fromColor_polygons h arguments) as Hps.
      destruct (Shared_fromColor arguments h) as [[newshared|e] h1]; cbn [snd] in Hps.
      * unfold M_bind, assign. rewrite Hps, Hp. cbn [snd].
        intros l q. rewrite Hps. apply Hh.
      * cbn [snd]. intros l q. rewrite Hps. apply Hh.
    + unfold getTetraFeatures. generalize (@nil num).
      induction features as [|feature features IH]; intros result; [exact Hh|].
      cbn [getTetraFeatures_forEach]. unfold M_bind at 1.
      destruct (String.eqb feature "volume").
      * unfold M_bind at 1, getSignedVolume, M_bind at 1, deref. rewrite Hp. exact Hh.
      * destruct (String.eqb feature "area").
        -- unfold M_bind at 1, getArea, M_bind at 1, deref. rewrite Hp. exact Hh.
        -- unfold ret at 1. apply IH.
Qed.
End invariant.

(** ** Memoization, setColor and repeated transforms *)

Section heap_effects.
Context {num : Type} `{Number num} `{Constants num}.
Context {Matrix4x4 Vertex : Type}.
Context `{Matrix4x4Ops num Matrix4x4} `{VertexLike num Matrix4x4 Vertex}.
Context `{PlaneOps num Matrix4x4}.

Local Abbreviation heap := (heap num Vertex).
Local Abbreviation Polygon3 := (Polygon3 num Vertex).

(** [boundingBox] by the state of the box cache, whatever the cache holds. *)
Lemma boundingBox_cases (h : heap) (this : loc) (p : Polygon3) :
  polygons h !! this = Some p ->
  boundingBox this h
  = match cachedBoundingBox p with
    | Some box => (OK box, h)
    | None =>
        (OK (box_of (vertices p)),
         mkHeap (<[this := set_cachedBoundingBox (box_of (vertices p)) p]> (polygons h))
                (shareds h))
    end.
Proof.
  intros Hp. unfold boundingBox, M_bind at 1. rewrite (deref_Some _ _ _ Hp).
  destruct (cachedBoundingBox p) as [box|] eqn:Hcache; [reflexivity|].
  pose proof (boundingBox_loop (vertices p)) as Hloop.
  unfold M_bind, lift, ret.
  destruct (if length (vertices p) =? 0
            then OK (Vector3D.Create num_zero num_zero num_zero)
            else pos_at (vertices p) 0) as [minpoint|e]; cbn [result_bind] in Hloop;
    [|discriminate].
  rewrite Hloop. now rewrite (assign_Some _ _ _ _ Hp).
Qed.

(** [boundingSphere] by the state of the two caches. *)
Lemma boundingSphere_cases (h : heap) (this : loc) (p : Polygon3) :
  polygons h !! this = Some p ->
  boundingSphere this h
  = match cachedBoundingSphere p with
    | Some sphere => (OK sphere, h)
    | None =>
        let box := default (box_of (vertices p)) (cachedBoundingBox p) in
        (OK (sphere_of box),
         mkHeap (<[this := set_cachedBoundingSphere (sphere_of box)
                             (set_cachedBoundingBox box p)]> (polygons h))
                (shareds h))
    end.
Proof.
  intros Hp. unfold boundingSphere, M_bind at 1. rewrite (deref_Some _ _ _ Hp).
  destruct (cachedBoundingSphere p) as [sphere|] eqn:Hsphere; [reflexivity|].
  unfold M_bind at 1. rewrite (boundingBox_cases _ _ _ Hp).
  destruct (cachedBoundingBox p) as [box|] eqn:Hbox; cbn [default from_option Datatypes.id].
  - unfold M_bind. rewrite (assign_Some _ _ _ _ Hp). unfold ret. do 3 f_equal.
    destruct p; cbn in *; now subst.
  - unfold M_bind. erewrite assign_Some by (cbn; apply lookup_insert_eq).
    unfold ret. cbn [polygons shareds]. now rewrite insert_insert_eq.
Qed.

(** X3 (Polygon3.prototype.boundingBox, boundingSphere).  The bounds queries
    are memoized.  A query whose cache is filled answers what the cache
    holds, whatever that is, and writes nothing.  A query whose cache is
    empty stores what it answers in its cache, changing nothing else of the
    receiver and no other object; [boundingSphere()] then fills the box
    cache as well, unless it was filled already.  So a second query answers
    as the first and leaves the heap as the first left it, and a
    [boundingBox()] after a first [boundingSphere()] writes nothing. *)
Theorem bounds_queries_memoized (h : heap) (this : loc) (p : Polygon3) :
  polygons h !! this = Some p ->
  (forall box, cachedBoundingBox p = Some box -> boundingBox this h = (OK box, h)) /\
  (forall sphere, cachedBoundingSphere p = Some sphere ->
     boundingSphere this h = (OK sphere, h)) /\
  (cachedBoundingBox p = None ->
   exists box,
     boundingBox this h
     = (OK box, mkHeap (<[this := set_cachedBoundingBox box p]> (polygons h)) (shareds h))) /\
  (cachedBoundingSphere p = None ->
   exists box sphere,
     boundingSphere this h
     = (OK sphere,
        mkHeap (<[this := set_cachedBoundingSphere sphere (set_cachedBoundingBox box p)]>
                  (polygons h)) (shareds h)) /\
     (forall cached, cachedBoundingBox p = Some cached -> box = cached) /\
     boundingBox this (boundingSphere this h).2 = (OK box, (boundingSphere this h).2)) /\
  boundingBox this (boundingBox this h).2 = boundingBox this h /\
  boundingSphere this (boundingSphere this h).2 = boundingSphere this h.
Proof.
  intros Hp. repeat apply conj.
  - intros box Hbox. now rewrite (boundingBox_cases _ _ _ Hp), Hbox.
  - intros sphere Hsphere. now rewrite (boundingSphere_cases _ _ _ Hp), Hsphere.
  - intros Hbox. rewrite (boundingBox_cases _ _ _ Hp), Hbox. eexists. reflexivity.
  - intros Hsphere. rewrite (boundingSphere_cases _ _ _ Hp), Hsphere. cbn zeta.
    eexists. eexists. split; [reflexivity|]. split.
    + intros cached Hcached. now rewrite Hcached.
    + cbn [snd]. erewrite boundingBox_cases by (cbn; apply lookup_insert_eq).
      reflexivity.
  - rewrite (boundingBox_cases _ _ _ Hp).
    destruct (cachedBoundingBox p) as [box|] eqn:Hbox; cbn [snd].
    + now rewrite (boundingBox_cases _ _ _ Hp), Hbox.
    + erewrite boundingBox_cases by (cbn; apply lookup_insert_eq). reflexivity.
  - rewrite (boundingSphere_cases _ _ _ Hp).
    destruct (cachedBoundingSphere p) as [sphere|] eqn:Hsphere; cbn [snd].
    + now rewrite (boundingSphere_cases _ _ _ Hp), Hsphere.
    + cbn zeta. erewrite boundingSphere_cases by (cbn; apply lookup_insert_eq).
      reflexivity.
Qed.

(** What [Shared.fromColor] can do to the heap: add one record of four
    components at a fresh location, or throw and change nothing. *)
Lemma Shared_fromColor_outcome (h : heap) (arguments : list (jsval num)) :
  (exists c, length c = 4 /\
     Shared_fromColor arguments h = alloc_shared (mkShared (Some c)) h) \/
  (exists e, Shared_fromColor arguments h = (Throw e, h)).
Proof.
  assert (Hchecked : forall color,
    (exists c, length c = 4 /\
       fromColor_checked color h = alloc_shared (mkShared (Some c)) h) \/
    (exists e, fromColor_checked color h = (Throw e, h))).
  { intros color. unfold fromColor_checked.
    destruct (length color) as [|[|[|[|[|n]]]]] eqn:Hlen;
      try (right; eexists; reflexivity).
    - left. eexists. split; [|reflexivity]. rewrite length_app, Hlen. reflexivity.
    - left. eexists. split; [|reflexivity]. exact Hlen. }
  destruct arguments as [|[n|a] [|b rest]].
  - rewrite (proj2 Shared_fromColor_arity) by (cbn; lia). apply Hchecked.
  - right. eexists. reflexivity.
  - rewrite (proj2 Shared_fromColor_arity) by (cbn; lia). apply Hchecked.
  - rewrite (proj1 Shared_fromColor_arity). apply Hchecked.
  - rewrite (proj2 Shared_fromColor_arity) by (cbn; lia). apply Hchecked.
Qed.

(** X4 (Polygon3.prototype.setColor, Polygon3.Shared.fromColor).  [setColor]
    is all or nothing.  Either it returns the receiver, after allocating one
    new shared record with a color of exactly four components at a location
    no record had and storing that location in the receiver's [shared]
    field, every other field, polygon and record staying as it was; or it
    throws and leaves the whole heap, the receiver included, unchanged. *)
Theorem setColor_all_or_nothing (h : heap) (this : loc) (p : Polygon3)
    (arguments : list (jsval num)) :
  polygons h !! this = Some p ->
  (exists newshared c,
     length c = 4 /\
     shareds h !! newshared = None /\
     setColor this arguments h
     = (OK this, mkHeap (<[this := set_shared newshared p]> (polygons h))
                        (<[newshared := mkShared (Some c)]> (shareds h)))) \/
  (exists e, setColor this arguments h = (Throw e, h)).
Proof.
  intros Hp. destruct (Shared_fromColor_outcome h arguments) as [(c & Hc & Hrun)|(e & Hrun)].
  - left. exists (fresh (dom (shareds h))), c. split; [exact Hc|].
    split; [apply not_elem_of_dom, is_fresh|].
    apply (setColor_run h _ this _ p arguments Hp Hrun). reflexivity.
  - right. exists e. unfold setColor, M_bind. now rewrite Hrun.
Qed.

(** X5 (Polygon3.prototype.setColor, transform).  A polygon made by
    [transform] shares the shared record of its source, and a later
    [setColor] on the source does not reach it: whatever the arguments and
    the outcome of [setColor], the derived polygon is unchanged, it still
    points to the old record, and the old record still holds its old color.
    When [setColor] succeeds the source points elsewhere from then on. *)
Theorem setColor_spares_derived_polygons (h : heap) (this : loc) (p : Polygon3)
    (matrix4x4 : Matrix4x4) (arguments : list (jsval num)) :
  let mapped := (fun v => Vertex_transform v matrix4x4) <$> vertices p in
  polygons h !! this = Some p ->
  is_Some (shareds h !! shared p) ->
  validated (if isMirroring matrix4x4 then reverse mapped else mapped)
            (Plane_transform (plane p) matrix4x4) ->
  exists l h1 q,
    transform this matrix4x4 h = (OK l, h1) /\
    polygons h1 !! l = Some q /\
    shared q = shared p /\
    polygons (setColor this arguments h1).2 !! l = Some q /\
    shareds (setColor this arguments h1).2 !! shared p = shareds h !! shared p /\
    (forall r, (setColor this arguments h1).1 = OK r ->
       exists p', polygons (setColor this arguments h1).2 !! this = Some p' /\
                  shared p' <> shared p).
Proof.
  intros mapped Hp Hshared Hv.
  destruct (new_Polygon3_with_plane
              (if isMirroring matrix4x4 then reverse mapped else mapped)
              (Some (shared p)) (Plane_transform (plane p) matrix4x4) h)
    as (l & h1 & Ha & Hnew).
  apply validated_convex_loop in Hv. rewrite Hv in Hnew.
  exists l, h1. eexists. split; [|split; [exact (allocated_new _ _ _ _ Ha)|]].
  { unfold transform, M_bind at 1. rewrite (deref_Some _ _ _ Hp). exact Hnew. }
  split; [reflexivity|].
  pose proof (allocated_frame _ _ _ _ _ _ Ha Hp) as Hp1.
  pose proof (allocated_new _ _ _ _ Ha) as Hl1.
  destruct Ha as (Hfresh & _ & Hss).
  assert (Hne : this <> l) by (intros ->; congruence).
  destruct (Shared_fromColor_outcome h1 arguments) as [(c & Hc & Hrun)|(e & Hrun)].
  - rewrite (setColor_run h1 _ this _ p arguments Hp1 Hrun eq_refl). cbn [fst snd polygons shareds].
    assert (Hnewshared : fresh (dom (shareds h1)) <> shared p).
    { intros Heq. pose proof (is_fresh (dom (shareds h1))) as Hf.
      rewrite Heq, Hss in Hf. apply Hf, elem_of_dom. exact Hshared. }
    split; [now rewrite lookup_insert_ne|].
    split; [rewrite lookup_insert_ne by exact Hnewshared; now rewrite Hss|].
    intros r _. eexists. split; [apply lookup_insert_eq|]. exact Hnewshared.
  - assert (Hset : setColor this arguments h1 = (Throw e, h1)).
    { unfold setColor, M_bind. now rewrite Hrun. }
    rewrite Hset. cbn [fst snd]. split; [exact Hl1|]. split; [now rewrite Hss|].
    intros r [=].
Qed.

Lemma shareds_valid_insert (h : heap) (l : loc) (s : Shared num)
    (ps : gmap loc Polygon3) :
  shareds_valid h ->
  (color s = None \/ exists c, color s = Some c /\ length c = 4) ->
  shareds_valid (mkHeap ps (<[l := s]> (shareds h))).
Proof.
  intros Hh Hs l' s'. cbn [shareds]. rewrite lookup_insert.
  case_decide; [now intros [= <-]|apply Hh].
Qed.

Lemma shareds_valid_same (h h' : heap) :
  shareds h' = shareds h -> shareds_valid h -> shareds_valid h'.
Proof. intros Heq Hh l s. rewrite Heq. apply Hh. Qed.

Lemma new_Polygon3_shareds (h : heap) (vertices : list Vertex) (shared : option loc)
    (pl : option (Plane num)) :
  shareds (new_Polygon3 vertices shared pl h).2 = shareds h.
Proof.
  assert (Hplane : forall pl, shareds (new_Polygon3 vertices shared (Some pl) h).2
                              = shareds h).
  { intros pl'. destruct (new_Polygon3_with_plane vertices shared pl' h)
      as (l & h' & (_ & _ & Hss) & ->). exact Hss. }
  destruct pl as [pl|]; [apply Hplane|].
  destruct (Nat.lt_ge_cases (length vertices) 3) as [Hn|Hn].
  - now rewrite new_Polygon3_too_short.
  - rewrite new_Polygon3_derives_plane by exact Hn. apply Hplane.
Qed.

Lemma polygon_methods_shareds (h : heap) (this : loc) :
  (forall matrix4x4, shareds (transform this matrix4x4 h).2 = shareds h) /\
  shareds (flipped this h).2 = shareds h /\
  shareds (boundingBox this h).2 = shareds h /\
  shareds (boundingSphere this h).2 = shareds h.
Proof.
  destruct (polygons h !! this) as [p|] eqn:Hp.
  - repeat apply conj.
    + intros matrix4x4. unfold transform, M_bind at 1. rewrite (deref_Some _ _ _ Hp).
      apply new_Polygon3_shareds.
    + unfold flipped, M_bind at 1. rewrite (deref_Some _ _ _ Hp).
      apply new_Polygon3_shareds.
    + rewrite (boundingBox_cases _ _ _ Hp). now destruct (cachedBoundingBox p).
    + rewrite (boundingSphere_cases _ _ _ Hp). now destruct (cachedBoundingSphere p).
  - repeat apply conj; intros;
      unfold transform, flipped, boundingBox, boundingSphere; now rewrite deref_None.
Qed.

Lemma shareds_valid_module :
  shareds_valid (module_heap (num := num) (Vertex := Vertex)).
Proof.
  intros l s. cbn. rewrite lookup_insert. case_decide; [|now rewrite lookup_empty].
  intros [= <-]. now left.
Qed.

(** X6 (Polygon3.Shared, Shared.fromColor, setColor).  The color of a shared
    record is [null] or has exactly four components, in the heap of the
    freshly loaded module and in every heap the constructors and the methods
    make of one where it holds, whatever their arguments and whether they
    return or throw. *)
Theorem shared_colors_have_four_components :
  shareds_valid (module_heap (num := num) (Vertex := Vertex)) /\
  forall h : heap,
    shareds_valid h ->
    (forall color, shareds_valid (new_Shared color h).2) /\
    (forall arguments, shareds_valid (Shared_fromColor arguments h).2) /\
    (forall this arguments, shareds_valid (setColor this arguments h).2) /\
    (forall vertices shared pl, shareds_valid (new_Polygon3 vertices shared pl h).2) /\
    (forall this matrix4x4, shareds_valid (transform this matrix4x4 h).2) /\
    (forall this offset, shareds_valid (translate this offset h).2) /\
    (forall this, shareds_valid (flipped this h).2) /\
    (forall this, shareds_valid (boundingBox this h).2) /\
    (forall this, shareds_valid (boundingSphere this h).2).
Proof.
  split; [exact shareds_valid_module|].
  intros h Hh.
  assert (HfromColor : forall arguments, shareds_valid (Shared_fromColor arguments h).2).
  { intros arguments.
    destruct (Shared_fromColor_outcome h arguments) as [(c & Hc & ->)|(e & ->)];
      [|exact Hh].
    apply shareds_valid_insert; [exact Hh|]. right. now exists c. }
  repeat apply conj.
  - intros [c|]; unfold new_Shared.
    + destruct (length c =? 4) eqn:Hlen; cbn [negb]; [|exact Hh].
      apply shareds_valid_insert; [exact Hh|]. right. exists c.
      split; [reflexivity|]. now apply Nat.eqb_eq.
    + apply shareds_valid_insert; [exact Hh|]. now left.
  - exact HfromColor.
  - intros this arguments. specialize (HfromColor arguments).
    unfold setColor, M_bind, assign.
    destruct (Shared_fromColor arguments h) as [[newshared|e] h1]; cbn [snd] in *;
      [|exact HfromColor].
    destruct (polygons h1 !! this); cbn [snd];
      [apply (shareds_valid_same h1); [reflexivity|exact HfromColor]|exact HfromColor].
  - intros vertices shared pl.
    exact (shareds_valid_same _ _ (new_Polygon3_shareds h vertices shared pl) Hh).
  - intros this matrix4x4.
    exact (shareds_valid_same _ _ (proj1 (polygon_methods_shareds h this) matrix4x4) Hh).
  - intros this offset.
    exact (shareds_valid_same _ _ (proj1 (polygon_methods_shareds h this) _) Hh).
  - intros this.
    exact (shareds_valid_same _ _ (proj1 (proj2 (polygon_methods_shareds h this))) Hh).
  - intros this.
    exact (shareds_valid_same _ _
             (proj1 (proj2 (proj2 (polygon_methods_shareds h this)))) Hh).
  - intros this.
    exact (shareds_valid_same _ _
             (proj2 (proj2 (proj2 (polygon_methods_shareds h this)))) Hh).
Qed.

(** X7 (Polygon3.prototype.transform).  Transforming twice maps every vertex
    through both matrices and keeps the order of the vertices when both or
    neither of the matrices is mirroring, and reverses it when exactly one
    is; the plane is transformed twice and the shared record is still the
    one of the first polygon. *)
Theorem transform_twice_order (h : heap) (this : loc) (p : Polygon3)
    (m1 m2 : Matrix4x4) :
  let mapped1 := (fun v => Vertex_transform v m1) <$> vertices p in
  let vertices1 := if isMirroring m1 then reverse mapped1 else mapped1 in
  let mapped2 := (fun v => Vertex_transform v m2) <$> vertices1 in
  let twice := (fun v => Vertex_transform (Vertex_transform v m1) m2) <$> vertices p in
  polygons h !! this = Some p ->
  validated vertices1 (Plane_transform (plane p) m1) ->
  validated (if isMirroring m2 then reverse mapped2 else mapped2)
            (Plane_transform (Plane_transform (plane p) m1) m2) ->
  exists l1 h1 l2 h2 q2,
    transform this m1 h = (OK l1, h1) /\
    transform l1 m2 h1 = (OK l2, h2) /\
    polygons h2 !! l2 = Some q2 /\
    vertices q2 = (if xorb (isMirroring m1) (isMirroring m2) then reverse twice else twice) /\
    plane q2 = Plane_transform (Plane_transform (plane p) m1) m2 /\
    shared q2 = shared p.
Proof.
  intros mapped1 vertices1 mapped2 twice Hp Hv1 Hv2.
  destruct (new_Polygon3_with_plane vertices1 (Some (shared p))
              (Plane_transform (plane p) m1) h) as (l1 & h1 & Ha1 & Hnew1).
  apply validated_convex_loop in Hv1. rewrite Hv1 in Hnew1.
  destruct (new_Polygon3_with_plane (if isMirroring m2 then reverse mapped2 else mapped2)
              (Some (shared p)) (Plane_transform (Plane_transform (plane p) m1) m2) h1)
    as (l2 & h2 & Ha2 & Hnew2).
  apply validated_convex_loop in Hv2. rewrite Hv2 in Hnew2.
  exists l1, h1, l2, h2. eexists. split; [|split; [|split]].
  - unfold transform, M_bind at 1. rewrite (deref_Some _ _ _ Hp). exact Hnew1.
  - unfold transform, M_bind at 1.
    rewrite (deref_Some _ _ _ (allocated_new _ _ _ _ Ha1)). exact Hnew2.
  - exact (allocated_new _ _ _ _ Ha2).
  - cbn [vertices plane shared]. split; [|split; reflexivity].
    unfold mapped2, vertices1, mapped1, twice.
    destruct (isMirroring m1), (isMirroring m2); cbn [xorb];
      rewrite ?fmap_reverse, ?reverse_involutive, <- !list_fmap_compose; reflexivity.
Qed.

(** X21 (Polygon3.prototype.translate).  When the translation matrix of an
    offset is not mirroring, [translate(offset)] allocates a polygon with the
    vertices of its receiver in their original order, each mapped through
    that matrix, and with the plane mapped through it; the receiver and its
    shared record are left as they were.  (The constructor's debug
    validation, when switched on, must accept the new loop.) *)
Theorem translate_keeps_order (h : heap) (this : loc) (p : Polygon3)
    (offset : Vector3D num) :
  let moved := (fun v => Vertex_transform v (translation offset)) <$> vertices p in
  polygons h !! this = Some p ->
  isMirroring (translation offset) = false ->
  validated moved (Plane_transform (plane p) (translation offset)) ->
  exists l h',
    translate this offset h = (OK l, h') /\
    allocated h h' l (mkPolygon3 moved (shared p)
                        (Plane_transform (plane p) (translation offset)) None None) /\
    polygons h' !! this = Some p.
Proof.
  intros moved Hp Hmirror Hv.
  destruct (new_Polygon3_with_plane moved (Some (shared p))
              (Plane_transform (plane p) (translation offset)) h) as (l & h' & Ha & Hnew).
  apply validated_convex_loop in Hv. rewrite Hv in Hnew.
  exists l, h'. split; [|split; [exact Ha|exact (allocated_frame _ _ _ _ _ _ Ha Hp)]].
  unfold translate, transform, M_bind at 1. rewrite (deref_Some _ _ _ Hp), Hmirror.
  exact Hnew.
Qed.
End heap_effects.

(** ** Construction from plain data and the hash of a shared record *)

Section plain_data.
Context {num : Type} `{Number num} `{Constants num} `{NumberToString num}.
Context {Matrix4x4 Vertex VertexObject PlaneObject Point : Type}.
Context `{Matrix4x4Ops num Matrix4x4} `{VertexLike num Matrix4x4 Vertex}.
Context `{PlaneOps num Matrix4x4}.
Context `{FromObject num Vertex VertexObject PlaneObject} `{FromPoint num Vertex Point}.

Local Abbreviation heap := (heap num Vertex).
Local Abbreviation Polygon3 := (Polygon3 num Vertex).

Lemma has_slash_app (a b : string) :
  has_slash (a +:+ b) = has_slash a || has_slash b.
Proof.
  induction a as [|c a IH]; [reflexivity|].
  change (String c a +:+ b) with (String c (a +:+ b)). cbn [has_slash].
  rewrite IH. now rewrite orb_assoc.
Qed.

Lemma has_slash_join (a b : string) (rest : list string) :
  has_slash (Array_join "/" (a :: b :: rest)) = true.
Proof.
  change (Array_join "/" (a :: b :: rest))
    with (a +:+ "/" +:+ Array_join "/" (b :: rest)).
  rewrite !has_slash_app. cbn. now rewrite orb_true_r.
Qed.

(** X8 (Polygon3.Shared.prototype.getHash).  In a heap whose colors have
    four components, [getHash] of a shared record neither throws nor
    touches the heap, and it returns the string "null" exactly when the
    record has no color: the hash of a colored record contains the
    separator "/" and so never collides with the hash of the colorless
    one, however numbers print. *)
Theorem getHash_null_iff_no_color (h : heap) (this : loc) (s : Shared num) :
  shareds_valid h ->
  shareds h !! this = Some s ->
  exists hash,
    Shared_getHash this h = (OK hash, h) /\
    (hash = "null" <-> color s = None) /\
    (color s <> None -> has_slash hash = true).
Proof.
  intros Hh Hs. unfold Shared_getHash, M_bind, deref_shared. rewrite Hs.
  destruct (Hh this s Hs) as [Hnone|(c & Hc & Hlen)].
  - rewrite Hnone. exists "null". split; [reflexivity|]. split; [tauto|congruence].
  - rewrite Hc. eexists. split; [reflexivity|].
    destruct c as [|a [|b rest]]; try discriminate.
    cbn [fmap list_fmap].
    pose proof (has_slash_join (jsval_toString a) (jsval_toString b)
                  (jsval_toString <$> rest)) as Hslash.
    split; [|intros _; exact Hslash]. split; [|discriminate].
    intros Heq. rewrite Heq in Hslash. discriminate.
Qed.

(** X9 (Polygon3.Shared.fromColor, getHash).  The three components r, g, b
    given as three arguments, as four arguments with alpha 1, as an array of
    three or as an array of four with alpha 1 all store the same color
    [r, g, b, 1] in a new record, and the hash of that record is the four
    components, as printed, joined by "/". *)
Theorem fromColor_forms_agree (h : heap) (r g b : num) :
  let stored := alloc_shared (mkShared (Some [Num r; Num g; Num b; Num num_one])) h in
  Shared_fromColor [Num r; Num g; Num b] h = stored /\
  Shared_fromColor [Num r; Num g; Num b; Num num_one] h = stored /\
  Shared_fromColor [Arr [r; g; b]] h = stored /\
  Shared_fromColor [Arr [r; g; b; num_one]] h = stored /\
  exists l h',
    stored = (OK l, h') /\
    Shared_getHash l h'
    = (OK (num_toString r +:+ "/" +:+ num_toString g +:+ "/" +:+ num_toString b
           +:+ "/" +:+ num_toString num_one), h').
Proof.
  intros stored. repeat apply conj; try reflexivity.
  eexists. eexists. split; [reflexivity|].
  unfold Shared_getHash, M_bind, deref_shared. cbn [shareds].
  rewrite lookup_insert_eq. reflexivity.
Qed.

Lemma createFromPoints_vertices (points : list Point) (vertices : list Vertex) :
  foldl (fun vertices p =>
           let vec := new_Vector3D p in
           let vertex := new_Vertex vec in
           vertices ++ [vertex]) vertices points
  = vertices ++ ((fun p => new_Vertex (new_Vector3D p)) <$> points).
Proof.
  revert vertices. induction points as [|p points IH]; intros vertices; cbn.
  - now rewrite app_nil_r.
  - rewrite IH. now rewrite <- app_assoc.
Qed.

(** X10 (Polygon3.createFromPoints).  When a new vertex sits at the vector
    it is made of, [createFromPoints] builds a polygon with one vertex per
    point, in the order of the points, at the vectors of the points.
    Called without a plane it throws on fewer than three points, leaving
    the heap as it was, and derives the plane from the first three points
    otherwise; called with a plane it accepts any number of points and
    keeps that plane.  (The constructor's debug validation, when switched
    on, must accept the loop.) *)
Theorem createFromPoints_vertices_and_plane (h : heap) (points : list Point)
    (shared : option loc) :
  (forall v, pos (new_Vertex v) = v) ->
  (length points < 3 ->
   createFromPoints points shared None h
   = (Throw (TypeError "Cannot read properties of undefined (reading 'pos')"), h)) /\
  (forall a b c rest,
     new_Vector3D <$> points = a :: b :: c :: rest ->
     exists l h' q,
       allocated h h' l q /\
       pos <$> vertices q = new_Vector3D <$> points /\
       plane q = Plane_fromVector3Ds a b c /\
       (validated (vertices q) (plane q) ->
        createFromPoints points shared None h = (OK l, h'))) /\
  (forall pl : Plane num,
     exists l h' q,
       allocated h h' l q /\
       pos <$> vertices q = new_Vector3D <$> points /\
       plane q = pl /\
       (validated (vertices q) pl ->
        createFromPoints points shared (Some pl) h = (OK l, h'))).
Proof.
  intros Hpos.
  set (vs := (fun p => new_Vertex (new_Vector3D p)) <$> points).
  assert (Hvertices : pos <$> vs = new_Vector3D <$> points).
  { unfold vs. rewrite <- list_fmap_compose. apply list_fmap_ext.
    intros i p _. cbn. apply Hpos. }
  assert (Hcreate : forall pl, createFromPoints points shared pl h
                               = new_Polygon3 vs shared pl h).
  { intros pl. unfold createFromPoints. rewrite createFromPoints_vertices.
    cbn [app]. now destruct pl. }
  assert (Hplane : forall pl : Plane num,
     exists l h' q,
       allocated h h' l q /\
       pos <$> vertices q = new_Vector3D <$> points /\
       plane q = pl /\
       (validated (vertices q) pl ->
        new_Polygon3 vs shared (Some pl) h = (OK l, h'))).
  { intros pl. destruct (new_Polygon3_with_plane vs shared pl h)
      as (l & h' & Ha & Hnew).
    exists l, h'. eexists. split; [exact Ha|]. cbn [vertices plane].
    split; [exact Hvertices|].
    split; [reflexivity|]. intros Hv. rewrite Hnew.
    apply validated_convex_loop in Hv. now rewrite Hv. }
  split; [|split].
  - intros Hn. rewrite Hcreate. apply new_Polygon3_too_short.
    unfold vs. now rewrite length_fmap.
  - intros a b c rest Hpoints.
    assert (Hn : 3 <= length vs).
    { rewrite <- (length_fmap pos), Hvertices, Hpoints. cbn. lia. }
    assert (Hposn : forall i, posn vs i
                = default (Vector3D.Create num_zero num_zero num_zero)
                          ((a :: b :: c :: rest) !! i)).
    { intros i. unfold posn. rewrite <- Hpoints, <- Hvertices, list_lookup_fmap.
      now destruct (vs !! i). }
    destruct (Hplane (Plane_fromVector3Ds a b c)) as (l & h' & q & Ha & Hq & Hpl & Hrun).
    exists l, h', q. split; [exact Ha|]. split; [exact Hq|]. split; [exact Hpl|].
    intros Hv. rewrite Hcreate, new_Polygon3_derives_plane by exact Hn.
    rewrite !Hposn. cbn [lookup list_lookup from_option Datatypes.id].
    apply Hrun. now rewrite Hpl in Hv.
  - intros pl. destruct (Hplane pl) as (l & h' & q & Ha & Hq & Hpl & Hrun).
    exists l, h', q. split; [exact Ha|]. split; [exact Hq|]. split; [exact Hpl|].
    intros Hv. rewrite Hcreate. now apply Hrun.
Qed.

(** X11 (Polygon3.fromObject, Polygon3.Shared.fromObject).  [fromObject]
    never derives a plane, so it accepts a record with any number of
    vertices.  On a record whose color is [null] or has four components it
    allocates a shared record of its own, at a location no record had (the
    default record is not reused, and two polygons rebuilt from one record do
    not share), and a polygon with the rebuilt vertices and plane and empty
    caches.  On any other color it throws the arity error of the shared
    constructor and leaves the heap as it was. *)
Theorem fromObject_rebuilds (h : heap) (obj : PolygonObject num VertexObject PlaneObject) :
  let rebuilt := Vertex_fromObject <$> obj_vertices obj in
  let pl := Plane_fromObject (obj_plane obj) in
  let c := obj_color (obj_shared obj) in
  ((c = None \/ exists a, c = Some a /\ length a = 4) ->
   exists s l,
     shareds h !! s = None /\
     polygons h !! l = None /\
     (validated rebuilt pl ->
      Polygon3_fromObject obj h
      = (OK l, mkHeap (<[l := mkPolygon3 rebuilt s pl None None]> (polygons h))
                      (<[s := mkShared c]> (shareds h))))) /\
  (forall a, c = Some a -> length a <> 4 ->
   Polygon3_fromObject obj h = (Throw (Error "Expecting 4 element array"), h)).
Proof.
  intros rebuilt pl c. split.
  - intros Hc.
    assert (Hshared : Shared_fromObject (obj_shared obj) h
                      = alloc_shared (mkShared c) h).
    { unfold Shared_fromObject, new_Shared. fold c.
      destruct Hc as [->|(a & -> & Hlen)]; [reflexivity|].
      apply Nat.eqb_eq in Hlen. now rewrite Hlen. }
    set (s := fresh (dom (shareds h))).
    set (h1 := mkHeap (polygons h) (<[s := mkShared c]> (shareds h))).
    destruct (new_Polygon3_with_plane rebuilt (Some s) pl h1)
      as (l & h' & (Hfresh & Hps & Hss) & Hnew).
    exists s, l. split; [apply not_elem_of_dom, is_fresh|]. split; [exact Hfresh|].
    intros Hv. unfold Polygon3_fromObject, M_bind at 1. rewrite Hshared.
    cbn [alloc_shared]. fold s h1. fold rebuilt pl. rewrite Hnew.
    apply validated_convex_loop in Hv. rewrite Hv. f_equal.
    destruct h' as [ps ss]. cbn in *. now subst.
  - intros a Hc Hlen. unfold Polygon3_fromObject, M_bind, Shared_fromObject, new_Shared.
    fold c. rewrite Hc. apply Nat.eqb_neq in Hlen. now rewrite Hlen.
Qed.
End plain_data.

(** ** Convexity does not depend on where the loop starts *)

Section convexity_invariance.
Context {num : Type} `{Number num} `{Constants num}.
Context {Matrix4x4 Vertex : Type}.
Context `{Matrix4x4Ops num Matrix4x4} `{VertexLike num Matrix4x4 Vertex}.
Context `{PlaneOps num Matrix4x4}.

(** Testing all indices below [n] through a map onto them is testing them
    all. *)
Lemma forallb_reindex (f g : nat -> bool) (to back : nat -> nat) (n : nat) :
  (forall i, i < n -> to i < n) ->
  (forall j, j < n -> back j < n /\ to (back j) = j) ->
  (forall i, i < n -> g i = f (to i)) ->
  forallb g (seq 0 n) = forallb f (seq 0 n).
Proof.
  intros Hto Hback Hg. apply Bool.eq_iff_eq_true. rewrite !forallb_forall. split.
  - intros Hall j Hj. apply in_seq in Hj. destruct (Hback j) as [Hlt Heq]; [lia|].
    rewrite <- Heq, <- Hg by exact Hlt. apply Hall, in_seq. lia.
  - intros Hall i Hi. apply in_seq in Hi. rewrite Hg by lia. apply Hall, in_seq.
    specialize (Hto i). lia.
Qed.

Lemma rotate_nat_add_mod (k i n : nat) :
  0 < n -> rotate_nat_add k i n = (k + i) mod n.
Proof.
  intros Hn. unfold rotate_nat_add.
  rewrite Z2Nat.inj_mod, Z2Nat.inj_add, !Nat2Z.id by lia. reflexivity.
Qed.

Lemma posn_rotate (vertices : list Vertex) (k i : nat) :
  i < length vertices ->
  posn (rotate k vertices) i = posn vertices ((k + i) mod length vertices).
Proof.
  intros Hi. unfold posn. rewrite lookup_rotate_r by exact Hi.
  now rewrite rotate_nat_add_mod by lia.
Qed.

Lemma corner_convex_rotate (vertices : list Vertex) (planenormal : Vector3D num)
    (k i : nat) :
  3 <= length vertices -> i < length vertices ->
  corner_convex (rotate k vertices) planenormal i
  = corner_convex vertices planenormal ((k + i) mod length vertices).
Proof.
  intros Hn Hi. unfold corner_convex. rewrite length_rotate.
  set (n := length vertices) in *.
  rewrite !posn_rotate by (fold n; try apply Nat.mod_upper_bound; lia). fold n.
  assert (Hshift : forall d, d <= n ->
            (k + (i + n - d) mod n) mod n = ((k + i) mod n + n - d) mod n).
  { intros d Hd. rewrite Nat.Div0.add_mod_idemp_r.
    replace ((k + i) mod n + n - d) with ((k + i) mod n + (n - d)) by lia.
    rewrite Nat.Div0.add_mod_idemp_l. f_equal. lia. }
  now rewrite !Hshift by lia.
Qed.

(** X12 (Polygon3.verticesConvex).  The verdict of [verticesConvex] does not
    depend on the vertex the loop starts at: rotating the vertex array by
    any number of places leaves it unchanged, for every loop, normal and
    number type. *)
Theorem verticesConvex_rotate (vertices : list Vertex) (planenormal : Vector3D num)
    (k : nat) :
  verticesConvex (rotate k vertices) planenormal = verticesConvex vertices planenormal.
Proof.
  rewrite !verticesConvex_corners. unfold convex_loop. rewrite length_rotate.
  destruct (Nat.ltb_spec 2 (length vertices)) as [Hn|Hn]; [|reflexivity].
  f_equal. set (n := length vertices) in *.
  apply (forallb_reindex _ _ (fun i => (k + i) mod n)
           (fun j => (j + n - k mod n) mod n)).
  - intros i _. apply Nat.mod_upper_bound. lia.
  - intros j Hj. split; [apply Nat.mod_upper_bound; lia|].
    rewrite Nat.Div0.add_mod_idemp_r.
    pose proof (Nat.mod_upper_bound k n ltac:(lia)) as Hk.
    rewrite (Nat.div_mod_eq k n) at 1.
    replace (n * (k / n) + k mod n + (j + n - k mod n)) with (j + (k / n + 1) * n) by nia.
    rewrite Nat.Div0.mod_add. apply Nat.mod_small. exact Hj.
  - intros i Hi. apply corner_convex_rotate; fold n; lia.
Qed.
End convexity_invariance.

(** ** Convexity in real arithmetic *)

Section convexity_reals.
Context `{Constants R}.
Context {Matrix4x4 Vertex : Type}.
Context `{Matrix4x4Ops R Matrix4x4} `{VertexLike R Matrix4x4 Vertex}.
Context `{PlaneOps R Matrix4x4}.

Local Abbreviation heap := (heap R Vertex).
Local Abbreviation Polygon3 := (Polygon3 R Vertex).

Lemma mod_wrap (a n : nat) :
  0 < n -> a < 2 * n -> a mod n = if a <? n then a else a - n.
Proof.
  intros Hn Ha. destruct (Nat.ltb_spec a n) as [Hlt|Hge].
  - now apply Nat.mod_small.
  - replace a with ((a - n) + 1 * n) at 1 by lia.
    rewrite Nat.Div0.mod_add. apply Nat.mod_small. lia.
Qed.

Lemma mirror_index_involutive (n i : nat) :
  3 <= n -> i < n -> mirror_index n i < n /\ mirror_index n (mirror_index n i) = i.
Proof.
  intros Hn Hi. unfold mirror_index. rewrite (mod_wrap (n + 1 - i)) by lia.
  destruct (Nat.ltb_spec (n + 1 - i) n); (split; [lia|]);
    rewrite mod_wrap by lia;
    match goal with |- context [?a <? ?b] => destruct (Nat.ltb_spec a b) end; lia.
Qed.

Lemma posn_reverse_flipped (vertices : list Vertex) (i : nat) :
  (forall v : Vertex, pos (Vertex_flipped v) = pos v) ->
  i < length vertices ->
  posn (reverse (Vertex_flipped <$> vertices)) i
  = posn vertices (length vertices - S i).
Proof.
  intros Hflip Hi. unfold posn.
  rewrite reverse_lookup by now rewrite length_fmap.
  rewrite length_fmap, list_lookup_fmap.
  destruct (vertices !! (length vertices - S i)); [apply Hflip|reflexivity].
Qed.

(** The corner of the flipped loop at [i], tested against the negated
    normal, is the corner of the loop at the mirror image of [i]. *)
Lemma corner_convex_reverse (vertices : list Vertex) (N : Vector3D R) (i : nat) :
  (forall v : Vertex, pos (Vertex_flipped v) = pos v) ->
  3 <= length vertices -> i < length vertices ->
  corner_convex (reverse (Vertex_flipped <$> vertices)) (Vector3D.negated N) i
  = corner_convex vertices N (mirror_index (length vertices) i).
Proof.
  intros Hflip Hn Hi. unfold corner_convex, mirror_index.
  rewrite length_reverse, length_fmap. set (n := length vertices) in *.
  assert (Hm : forall a, a < 2 * n -> a mod n < n /\ a mod n = if a <? n then a else a - n).
  { intros a Ha. split; [apply Nat.mod_upper_bound; lia|apply mod_wrap; lia]. }
  rewrite !posn_reverse_flipped by (try exact Hflip; fold n; try apply Hm; lia).
  fold n.
  assert (Hprev : ((n + 1 - i) mod n + n - 2) mod n = n - S i).
  { rewrite (proj2 (Hm (n + 1 - i) ltac:(lia))).
    destruct (Nat.ltb_spec (n + 1 - i) n);
      rewrite mod_wrap by lia;
      match goal with |- context [?a <? ?b] => destruct (Nat.ltb_spec a b) end; lia. }
  assert (Hcur : ((n + 1 - i) mod n + n - 1) mod n = n - S ((i + n - 1) mod n)).
  { rewrite (proj2 (Hm (n + 1 - i) ltac:(lia))), (proj2 (Hm (i + n - 1) ltac:(lia))).
    destruct (Nat.ltb_spec (n + 1 - i) n), (Nat.ltb_spec (i + n - 1) n);
      rewrite mod_wrap by lia;
      match goal with |- context [?a <? ?b] => destruct (Nat.ltb_spec a b) end; lia. }
  assert (Hnext : (n + 1 - i) mod n = n - S ((i + n - 2) mod n)).
  { rewrite (proj2 (Hm (n + 1 - i) ltac:(lia))), (proj2 (Hm (i + n - 2) ltac:(lia))).
    destruct (Nat.ltb_spec (n + 1 - i) n), (Nat.ltb_spec (i + n - 2) n); lia. }
  rewrite Hprev, Hcur, Hnext.
  set (a := posn vertices (n - S ((i + n - 2) mod n))).
  set (b := posn vertices (n - S ((i + n - 1) mod n))).
  set (c := posn vertices (n - S i)).
  f_equal.
  unfold Vector3D.dot, Vector3D.cross, Vector3D.minus, Vector3D.negated.
  cbn [Vector3D._x Vector3D._y Vector3D._z]. real_ops. ring.
Qed.

(** X13 (Polygon3.prototype.flipped, verticesConvex).  Over the reals, when
    flipping a vertex leaves its position alone, the flipped loop is convex
    about the negated normal exactly when the loop is convex about the
    normal.  So [flipped()] of a polygon that passes [checkIfConvex] never
    throws, with the debug validation on or off, and its result passes
    [checkIfConvex] again. *)
Theorem flipped_keeps_convexity :
  (forall v : Vertex, pos (Vertex_flipped v) = pos v) ->
  (forall (vertices : list Vertex) (N : Vector3D R),
     verticesConvex (reverse (Vertex_flipped <$> vertices)) (Vector3D.negated N)
     = verticesConvex vertices N) /\
  (forall (h : heap) (this : loc) (p : Polygon3),
     polygons h !! this = Some p ->
     checkIfConvex this h = (OK true, h) ->
     exists l h',
       flipped this h = (OK l, h') /\
       checkIfConvex l h' = (OK true, h')).
Proof.
  intros Hflip.
  assert (Hloop : forall (vertices : list Vertex) (N : Vector3D R),
     verticesConvex (reverse (Vertex_flipped <$> vertices)) (Vector3D.negated N)
     = verticesConvex vertices N).
  { intros vertices N. rewrite !verticesConvex_corners. unfold convex_loop.
    rewrite length_reverse, length_fmap.
    destruct (Nat.ltb_spec 2 (length vertices)) as [Hn|Hn]; [|reflexivity].
    f_equal.
    apply (forallb_reindex _ _ (mirror_index (length vertices))
             (mirror_index (length vertices))).
    - intros i Hi. now apply mirror_index_involutive.
    - intros j Hj. now apply mirror_index_involutive.
    - intros i Hi. now apply corner_convex_reverse. }
  split; [exact Hloop|].
  intros h this p Hp Hconvex.
  unfold checkIfConvex, M_bind, lift in Hconvex. rewrite (deref_Some _ _ _ Hp) in Hconvex.
  injection Hconvex as Hconvex.
  assert (Hflipped : verticesConvex (reverse (Vertex_flipped <$> vertices p))
                       (Plane.normal (Plane.flipped (plane p))) = OK true).
  { cbn [Plane.flipped Plane.normal]. now rewrite Hloop. }
  destruct (new_Polygon3_with_plane (reverse (Vertex_flipped <$> vertices p))
              (Some (shared p)) (Plane.flipped (plane p)) h) as (l & h' & Ha & Hnew).
  assert (Hv : validated (reverse (Vertex_flipped <$> vertices p))
                 (Plane.flipped (plane p))) by (intros _; exact Hflipped).
  apply validated_convex_loop in Hv. rewrite Hv in Hnew.
  exists l, h'. split.
  - unfold flipped, M_bind at 1. rewrite (deref_Some _ _ _ Hp). exact Hnew.
  - unfold checkIfConvex, M_bind, lift.
    rewrite (deref_Some _ _ _ (allocated_new _ _ _ _ Ha)). cbn [vertices plane].
    now rewrite Hflipped.
Qed.

(** X15 (Polygon3.isConvexPoint, isStrictlyConvexPoint).  Over the reals and
    for a threshold EPS that is not negative, a corner that passes the
    strict test passes the plain one. *)
Theorem strictly_convex_is_convex (prevpoint point nextpoint normal : Vector3D R) :
  (0 <= EPS)%R ->
  isStrictlyConvexPoint prevpoint point nextpoint normal = true ->
  isConvexPoint prevpoint point nextpoint normal = true.
Proof.
  unfold isStrictlyConvexPoint, isConvexPoint. real_ops. intros Heps.
  destruct (Rle_dec EPS _) as [Hstrict|]; [|discriminate]. intros _.
  destruct (Rle_dec 0 _) as [|Hno]; [reflexivity|]. exfalso. apply Hno. lra.
Qed.
End convexity_reals.

(** ** More on measures and bounds in real arithmetic *)

Section measures_reals.
Context `{Constants R}.
Context {Matrix4x4 Vertex : Type}.
Context `{Matrix4x4Ops R Matrix4x4} `{VertexLike R Matrix4x4 Vertex}.
Context `{PlaneOps R Matrix4x4}.

Local Abbreviation heap := (heap R Vertex).
Local Abbreviation Polygon3 := (Polygon3 R Vertex).

(** X16 (Polygon3.prototype.getArea, getSignedVolume).  On a polygon with
    fewer than three vertices the loops of the two measures do not run: both
    return 0, without throwing and without reading a vertex. *)
Theorem degenerate_measures_zero (h : heap) (this : loc) (p : Polygon3) :
  polygons h !! this = Some p ->
  length (vertices p) < 3 ->
  getArea this h = (OK 0%R, h) /\ getSignedVolume this h = (OK 0%R, h).
Proof.
  intros Hp Hn. rewrite (getArea_run _ _ _ Hp), (getSignedVolume_run _ _ _ Hp).
  replace (length (vertices p) - 2) with 0 by lia.
  cbn [seq fmap list_fmap num_sum foldl]. real_ops.
  split; do 2 f_equal; lra.
Qed.

Lemma num_sum_nonneg (l : list R) :
  (forall x, x ∈ l -> (0 <= x)%R) -> (0 <= num_sum l)%R.
Proof.
  intros Hl. pose proof (num_sum_sign 1 l) as Hsum.
  rewrite Rmult_1_r in Hsum. apply Hsum. intros x Hx. specialize (Hl x Hx). lra.
Qed.

(** X17 (Polygon3.prototype.getArea).  Over the reals the area of a polygon
    is never negative, whatever its vertices and their order. *)
Theorem getArea_nonnegative (h : heap) (this : loc) (p : Polygon3) :
  polygons h !! this = Some p ->
  exists area : R, getArea this h = (OK area, h) /\ (0 <= area)%R.
Proof.
  intros Hp. eexists. split; [exact (getArea_run _ _ _ Hp)|]. real_ops.
  assert (Hsum : (0 <= num_sum ((fun i => Vector3D.length (fan_cross (vertices p) i))
                                <$> seq 0 (length (vertices p) - 2)))%R).
  { apply num_sum_nonneg. intros x Hx.
    apply list_elem_of_fmap in Hx as (i & -> & _).
    unfold Vector3D.length. real_ops. apply sqrt_pos. }
  lra.
Qed.

(** The corners of the box of a loop that has a vertex are, coordinate by
    coordinate, the least and the greatest over the positions. *)
Lemma box_of_bounds (c : Vector3D R -> R) (vertices : list Vertex) :
  (forall a b, c (Vector3D.min a b) = Rmin (c a) (c b)) ->
  (forall a b, c (Vector3D.max a b) = Rmax (c a) (c b)) ->
  vertices <> [] ->
  is_least (c (box_of vertices).1) (c ∘ pos <$> vertices) /\
  is_greatest (c (box_of vertices).2) (c ∘ pos <$> vertices).
Proof.
  intros Hmin Hmax Hne. destruct vertices as [|v rest]; [congruence|].
  destruct (box_of_coordinate c v rest Hmin Hmax) as [-> ->].
  split; [apply foldl_Rmin_least|apply foldl_Rmax_greatest].
Qed.

(** X19 (Polygon3.prototype.flipped, boundingBox).  Over the reals, when
    flipping a vertex leaves its position alone, the polygon [flipped()]
    returns has the bounding box of its source.  (The constructor's debug
    validation, when switched on, must accept the flipped loop.) *)
Theorem flipped_keeps_boundingBox (h : heap) (this : loc) (p : Polygon3) :
  (forall v : Vertex, pos (Vertex_flipped v) = pos v) ->
  polygons h !! this = Some p ->
  caches_valid p ->
  validated (reverse (Vertex_flipped <$> vertices p)) (Plane.flipped (plane p)) ->
  exists l h',
    flipped this h = (OK l, h') /\
    (boundingBox l h').1 = (boundingBox this h).1.
Proof.
  intros Hflip Hp Hvalid Hv.
  set (flippedvertices := reverse (Vertex_flipped <$> vertices p)) in *.
  destruct (new_Polygon3_with_plane flippedvertices (Some (shared p))
              (Plane.flipped (plane p)) h) as (l & h' & Ha & Hnew).
  apply validated_convex_loop in Hv. rewrite Hv in Hnew.
  exists l, h'. split.
  { unfold flipped, M_bind at 1. rewrite (deref_Some _ _ _ Hp). exact Hnew. }
  rewrite (boundingBox_run _ _ _ Hp Hvalid).
  rewrite (boundingBox_run _ _ _ (allocated_new _ _ _ _ Ha) (caches_valid_new _ _ _)).
  cbn [fst vertices]. f_equal.
  destruct (vertices p) as [|v rest] eqn:Hvs; [reflexivity|].
  assert (Hne : flippedvertices <> []).
  { intros Hnil. apply (f_equal length) in Hnil. unfold flippedvertices in Hnil.
    rewrite length_reverse, length_fmap in Hnil. discriminate. }
  assert (Hsame : forall (c : Vector3D R -> R) (x : R),
            x ∈ (c ∘ pos <$> flippedvertices) <-> x ∈ (c ∘ pos <$> v :: rest)).
  { intros c x. unfold flippedvertices. rewrite !list_elem_of_fmap. split.
    - intros (u & -> & Hu). apply elem_of_reverse, list_elem_of_fmap in Hu
        as (u' & -> & Hu'). exists u'. split; [cbn; now rewrite Hflip|exact Hu'].
    - intros (u & -> & Hu). exists (Vertex_flipped u).
      split; [cbn; now rewrite Hflip|].
      apply elem_of_reverse, list_elem_of_fmap. now exists u. }
  assert (Hc : forall c : Vector3D R -> R,
            (forall a b, c (Vector3D.min a b) = Rmin (c a) (c b)) ->
            (forall a b, c (Vector3D.max a b) = Rmax (c a) (c b)) ->
            c (box_of flippedvertices).1 = c (box_of (v :: rest)).1 /\
            c (box_of flippedvertices).2 = c (box_of (v :: rest)).2).
  { intros c Hmin Hmax.
    destruct (box_of_bounds c flippedvertices Hmin Hmax Hne) as [[Hin1 Hle1] [Hin2 Hge1]].
    destruct (box_of_bounds c (v :: rest) Hmin Hmax ltac:(discriminate))
      as [[Hin3 Hle2] [Hin4 Hge2]].
    split; apply Rle_antisym.
    - apply Hle1, Hsame, Hin3.
    - apply Hle2, Hsame, Hin1.
    - apply Hge2, Hsame, Hin2.
    - apply Hge1, Hsame, Hin4. }
  destruct (Hc Vector3D._x ltac:(reflexivity) ltac:(reflexivity)) as [Hx1 Hx2].
  destruct (Hc Vector3D._y ltac:(reflexivity) ltac:(reflexivity)) as [Hy1 Hy2].
  destruct (Hc Vector3D._z ltac:(reflexivity) ltac:(reflexivity)) as [Hz1 Hz2].
  destruct (box_of flippedvertices) as [[x1 y1 z1] [x2 y2 z2]].
  destruct (box_of (v :: rest)) as [[x3 y3 z3] [x4 y4 z4]].
  cbn in *. now subst.
Qed.

(** X20 (Polygon3.prototype.flipped, getArea).  Over the reals, when
    flipping a vertex leaves its position alone, flipping a triangle keeps
    its area.  (The constructor's debug validation, when switched on, must
    accept the flipped loop.) *)
Theorem triangle_flipped_area (h : heap) (this : loc) (p : Polygon3) :
  (forall v : Vertex, pos (Vertex_flipped v) = pos v) ->
  polygons h !! this = Some p ->
  length (vertices p) = 3 ->
  validated (reverse (Vertex_flipped <$> vertices p)) (Plane.flipped (plane p)) ->
  exists l h' area,
    flipped this h = (OK l, h') /\
    getArea this h = (OK area, h) /\
    getArea l h' = (OK area, h').
Proof.
  intros Hflip Hp Hn Hv.
  destruct (new_Polygon3_with_plane (reverse (Vertex_flipped <$> vertices p))
              (Some (shared p)) (Plane.flipped (plane p)) h) as (l & h' & Ha & Hnew).
  apply validated_convex_loop in Hv. rewrite Hv in Hnew.
  assert (Hrun : flipped this h = (OK l, h')).
  { unfold flipped, M_bind at 1. rewrite (deref_Some _ _ _ Hp). exact Hnew. }
  pose proof (allocated_new _ _ _ _ Ha) as Hl.
  pose proof (getArea_run _ _ _ Hp) as Harea.
  pose proof (getArea_run _ _ _ Hl) as Harea'.
  cbn [vertices] in Harea'.
  rewrite length_reverse, length_fmap in Harea'.
  destruct (vertices p) as [|a [|b [|c [|d rest]]]]; try discriminate.
  change (reverse (Vertex_flipped <$> [a; b; c]))
    with [Vertex_flipped c; Vertex_flipped b; Vertex_flipped a] in *.
  cbn [length Nat.sub seq fmap list_fmap num_sum foldl] in Harea, Harea'.
  unfold fan_cross, posn in *.
  cbn [lookup list_lookup Nat.add] in *.
  rewrite !Hflip in *.
  exists l, h'. eexists. split; [exact Hrun|].
  split; [exact Harea|].
  rewrite Harea'. do 2 f_equal.
  unfold Vector3D.length, Vector3D.dot, Vector3D.cross, Vector3D.minus.
  cbn [Vector3D._x Vector3D._y Vector3D._z]. real_ops. do 3 f_equal. ring.
Qed.
End measures_reals.

(** ** The theorems at work *)

Section instances.
Import Collaborators Scenario.
#[local] Existing Instance float_debug.

Lemma float_neg_involutive (x : float) : (- - x)%num = x.
Proof.
  apply Prim2SF_inj. cbn [num_neg Number_float]. rewrite !opp_spec.
  destruct (Prim2SF x) as [s| s| |s m e]; cbn; now rewrite ?negb_involutive.
Qed.

Lemma float_heap_triangle : polygons float_heap !! 0 = Some (triangle_polygon 10%float).
Proof. vm_compute. reflexivity. Qed.

(** The scenario of the spec on doubles: the triangle is convex, its area
    is 50 and the derived plane normal is the unit vector along x. *)
Example triangle_scenario :
  verticesConvex (triangle 10%float) (Plane.normal plane_x) = OK true /\
  getArea 0 float_heap = (OK 50%float, float_heap) /\
  Plane_fromVector3Ds (posn (triangle 10%float) 0) (posn (triangle 10%float) 1)
                      (posn (triangle 10%float) 2) = plane_x.
Proof. vm_compute. repeat split. Qed.

(** In debug mode the constructor rejects the dart. *)
Example dart_not_convex :
  (new_Polygon3 (dart 2%float 10%float) None (Some plane_x) module_heap).1
  = Throw (Error "Not convex!").
Proof. vm_compute. reflexivity. Qed.

(** Numbers as [Array.prototype.join] prints them. *)
Example Number_toString_examples :
  Number_toString <$> [0; -0; 1; 255; 0.5; -2.5; 1 / 10; 1 / 10 + 2 / 10; 100 / 6; 1 / 3;
                       1e21; 0x1.ac53a7e04bcdap+66; 1 / 1000000; 1 / 10000000;
                       0x1p-1074; 0x1.fffffffffffffp+1023; infinity; 0 / 0]%float
  = ["0"; "0"; "1"; "255"; "0.5"; "-2.5"; "0.1"; "0.30000000000000004";
     "16.666666666666668"; "0.3333333333333333"; "1e+21"; "123456789012345680000";
     "0.000001"; "1e-7"; "5e-324"; "1.7976931348623157e+308"; "Infinity"; "NaN"]%string.
Proof. vm_compute. reflexivity. Qed.

(** [transform] with the mirror x -> -x reverses the triangle; the debug
    validation accepts the reversed loop against the transformed plane. *)
Lemma transform_maps_vertices_and_plane_witness :
  exists l h',
    transform 0 mirror_x float_heap = (OK l, h') /\
    vertices <$> polygons h' !! l
    = Some (reverse ((fun v => Vertex_transform v mirror_x) <$> triangle 10%float)).
Proof.
  destruct (transform_maps_vertices_and_plane float_heap 0 (triangle_polygon 10%float)
              mirror_x float_heap_triangle)
    as (l & h' & q & Hrun & Ha & _ & Hmirror & _).
  - intros _. vm_compute. reflexivity.
  - exists l, h'. split; [exact Hrun|].
    rewrite (allocated_new _ _ _ _ Ha). cbn [fmap option_fmap option_map].
    f_equal. apply Hmirror. vm_compute. reflexivity.
Defined.

(** Flipping the triangle twice gives back its positions and its normal. *)
Lemma flipped_reverses_and_negates_witness :
  exists l h' l2 h2 q2,
    flipped 0 float_heap = (OK l, h') /\
    flipped l h' = (OK l2, h2) /\
    polygons h2 !! l2 = Some q2 /\
    pos <$> vertices q2 = pos <$> triangle 10%float /\
    Plane.normal (plane q2) = Plane.normal (plane_x (num := float)).
Proof.
  destruct (flipped_reverses_and_negates float_heap 0 (triangle_polygon 10%float)
              float_heap_triangle)
    as (l & h' & q & Hrun & Ha & _ & _ & _ & _ & _ & _ & Htwice).
  - intros _. vm_compute. reflexivity.
  - destruct Htwice as (l2 & h2 & q2 & Hrun2 & Ha2 & Hpos & Hnormal).
    + intros v. reflexivity.
    + exact float_neg_involutive.
    + intros _. vm_compute. reflexivity.
    + exists l, h', l2, h2, q2. repeat split.
      * exact Hrun.
      * exact Hrun2.
      * exact (allocated_new _ _ _ _ Ha2).
      * exact Hpos.
      * exact Hnormal.
Defined.

(** The empty loop and the triangle are convex. *)
Lemma verticesConvex_iff_all_corners_witness :
  verticesConvex ([] : list (Vertex3 float)) (Plane.normal plane_x) = OK true /\
  verticesConvex (triangle 10%float) (Plane.normal plane_x)
  = OK (forallb (corner_convex (triangle 10%float) (Plane.normal plane_x)) (seq 0 3)).
Proof.
  split.
  - apply (proj1 (verticesConvex_iff_all_corners (Vertex := Vertex3 float))).
    cbn. lia.
  - destruct (proj1 (proj2 (verticesConvex_iff_all_corners (Vertex := Vertex3 float)))
                (triangle 10%float) (Plane.normal plane_x)) as [Hrun _].
    + cbn. lia.
    + exact Hrun.
Defined.

(** The batched query on the triangle. *)
Lemma getTetraFeatures_keeps_known_names_witness :
  exists volume area : float,
    getSignedVolume 0 float_heap = (OK volume, float_heap) /\
    getArea 0 float_heap = (OK area, float_heap) /\
    getTetraFeatures 0 ["area"; "perimeter"; "volume"]%string float_heap
    = (OK [area; volume], float_heap).
Proof.
  destruct (getTetraFeatures_keeps_known_names float_heap 0 (triangle_polygon 10%float)
              float_heap_triangle)
    as (volume & area & Hvol & Harea & Hfeatures).
  exists volume, area. split; [exact Hvol|]. split; [exact Harea|].
  rewrite Hfeatures. reflexivity.
Defined.

(** Two vertices and no plane: the constructor throws. *)
Lemma constructor_plane_argument_witness :
  new_Polygon3 (take 2 (triangle 10%float)) None None module_heap
  = (Throw (TypeError "Cannot read properties of undefined (reading 'pos')"),
     module_heap).
Proof.
  apply (proj1 (constructor_plane_argument (Vertex := Vertex3 float))).
  cbn. lia.
Defined.

Lemma square_heap_square : polygons square_heap !! 1 = Some square_polygon.
Proof. vm_compute. reflexivity. Qed.

(** On doubles: the area of the triangle is 50, and the area of the square
    is the sum of the halves 50 and 50 of its two fan triangles. *)
Lemma getArea_fan_triangulation_witness :
  getArea 0 float_heap = (OK 50%float, float_heap) /\
  halving_exact [100; 100]%float /\
  getArea 1 square_heap = (OK (num_sum [50; 50]%float), square_heap).
Proof.
  destruct getArea_fan_triangulation as [Hfan Htriangle].
  assert (Hexact : halving_exact [100; 100]%float).
  { split; [reflexivity|].
    intros [|[|k]] x Hx; cbn in Hx; inversion Hx; subst; reflexivity. }
  split; [|split; [exact Hexact|]].
  - apply (Htriangle _ _ _ float_heap 0 (triangle_polygon 10%float) float_heap_triangle).
    reflexivity.
  - destruct (Hfan float _ _ _ _ square_heap 1 square_polygon square_heap_square)
      as [_ Hhalves]; [cbn; lia|].
    rewrite Hhalves; [reflexivity|exact Hexact].
Defined.

Lemma facing_heap_front :
  polygons facing_heap !! 0
  = Some (mkPolygon3 front_triangle defaultShared
            (Plane.Create (Vector3D.Create 1 0 0) 1)%float None None).
Proof. vm_compute. reflexivity. Qed.

(** On doubles: the triangle in the plane x = 1 has one triple product,
    100, and the volume 100 / 6. *)
Lemma getSignedVolume_fan_tetrahedra_witness :
  getSignedVolume 0 facing_heap = (OK (100 / 6)%float, facing_heap).
Proof.
  rewrite (getSignedVolume_fan_tetrahedra facing_heap 0 _ facing_heap_front).
  - reflexivity.
  - cbn. lia.
Defined.

(** C5, where the claim does not hold: the sign of the volume does not
    follow the orientation of the loop about the plane normal.  The two
    triangles of [facing_heap] have the same plane normal +x, as derived by
    the constructor, and wind the same way about it (both have the fan cross
    product (100, 0, 0) and both pass the convexity test against +x); the
    one in the plane x = 1 has the volume 100 / 6 > 0 and the one in the
    plane x = -1 the volume -100 / 6 < 0. *)
Lemma getSignedVolume_sign_counterexample :
  Plane.normal <$> (plane <$> polygons facing_heap !! 0)
  = Some (Vector3D.Create 1 0 0)%float /\
  Plane.normal <$> (plane <$> polygons facing_heap !! 1)
  = Some (Vector3D.Create 1 0 0)%float /\
  fan_cross front_triangle 0 = (Vector3D.Create 100 0 0)%float /\
  fan_cross back_triangle 0 = (Vector3D.Create 100 0 0)%float /\
  checkIfConvex 0 facing_heap = (OK true, facing_heap) /\
  checkIfConvex 1 facing_heap = (OK true, facing_heap) /\
  getSignedVolume 0 facing_heap = (OK (100 / 6)%float, facing_heap) /\
  getSignedVolume 1 facing_heap = (OK (-100 / 6)%float, facing_heap) /\
  (0 <? 100 / 6)%float = true /\
  (-100 / 6 <? 0)%float = true.
Proof. vm_compute. repeat split. Qed.

(** On doubles: the coordinates 0, 10, 10 of the triangle are comparable. *)
Lemma triangle_comparable (c : Vector3D float -> float) :
  c ∈ coordinates -> comparable (c ∘ pos <$> triangle 10%float).
Proof.
  intros Hc. unfold coordinates in Hc.
  repeat (apply elem_of_cons in Hc as [->|Hc]); [| | |inversion Hc].
  all: split;
    [intros x y z Hx Hy Hz; cbn in Hx, Hy, Hz;
     repeat (apply elem_of_cons in Hx as [->|Hx]); try (now inversion Hx);
     repeat (apply elem_of_cons in Hy as [->|Hy]); try (now inversion Hy);
     repeat (apply elem_of_cons in Hz as [->|Hz]); try (now inversion Hz);
     vm_compute; congruence
    |intros a b Ha Hb; cbn in Ha, Hb;
     repeat (apply elem_of_cons in Ha as [->|Ha]); try (now inversion Ha);
     repeat (apply elem_of_cons in Hb as [->|Hb]); try (now inversion Hb);
     vm_compute; repeat split; auto].
Qed.

(** On doubles: the box of the triangle is (0,0,0) .. (0,10,10), whose
    corners hold the lowest and the highest coordinates, and its sphere has
    the center (0,5,5) and the radius sqrt 50. *)
Lemma bounding_box_and_sphere_witness :
  exists h' h'' : heap float (Vertex3 float),
    boundingBox 0 float_heap
    = (OK (Vector3D.Create 0 0 0, Vector3D.Create 0 10 10)%float, h') /\
    boundingSphere 0 float_heap
    = (OK (Vector3D.Create 0 5 5, Math_sqrt 50)%float, h'') /\
    Forall (fun c : Vector3D float -> float =>
              lowest (c (Vector3D.Create 0 0 0)%float) (c ∘ pos <$> triangle 10%float) /\
              highest (c (Vector3D.Create 0 10 10)%float) (c ∘ pos <$> triangle 10%float))
           coordinates.
Proof.
  destruct (bounding_box_and_sphere float_heap 0 (triangle_polygon 10%float)
              float_heap_triangle (caches_valid_new _ _ _))
    as (minpoint & maxpoint & h' & Hbox & _ & Hbounds & center & radius & h'' & Hsphere
        & Hcenter & Hradius).
  specialize (Hbounds _ _ eq_refl).
  assert (Hmin : minpoint = (Vector3D.Create 0 0 0)%float).
  { destruct minpoint as [x y z]. unfold coordinates in Hbounds.
    apply Forall_cons in Hbounds as [(Hx & _) Hbounds].
    apply Forall_cons in Hbounds as [(Hy & _) Hbounds].
    apply Forall_cons in Hbounds as [(Hz & _) _].
    cbn in Hx, Hy, Hz. now subst. }
  assert (Hmax : maxpoint = (Vector3D.Create 0 10 10)%float).
  { destruct maxpoint as [x y z]. unfold coordinates in Hbounds.
    apply Forall_cons in Hbounds as [(_ & Hx & _) Hbounds].
    apply Forall_cons in Hbounds as [(_ & Hy & _) Hbounds].
    apply Forall_cons in Hbounds as [(_ & Hz & _) _].
    cbn in Hx, Hy, Hz. now subst. }
  subst minpoint maxpoint. exists h', h''. split; [exact Hbox|]. split.
  - rewrite Hsphere, Hradius, Hcenter. reflexivity.
  - apply Forall_forall. intros c Hc.
    apply (proj1 (Forall_forall _ _) Hbounds c Hc), (triangle_comparable c Hc).
Defined.

(** A color array of two components is rejected by the constructor and by
    [fromColor]; three numbers get alpha 1. *)
Example color_arities :
  let h := module_heap (num := float) (Vertex := Vertex3 float) in
  new_Shared (Some [Num 1%float; Num 0%float]) h
  = (Throw (Error "Expecting 4 element array"), h) /\
  Shared_fromColor [Arr [1%float; 0%float]] h
  = (Throw (Error "setColor expects either an array with 3 or 4 elements, or 3 or 4 parameters."), h) /\
  color <$> shareds (Shared_fromColor [Num 1%float; Num 0%float; Num 0%float] h).2 !! 1
  = Some (Some [Num 1%float; Num 0%float; Num 0%float; Num 1%float]).
Proof. vm_compute. repeat split. Qed.

(** C7, where the code leaves the claim: a single numeric argument is not
    answered with the arity error of [fromColor] but with the [TypeError] of
    calling [slice] on a number. *)
Example fromColor_lone_number_TypeError :
  Shared_fromColor [Num 0.5%float] (module_heap (Vertex := Vertex3 float))
  = (Throw (TypeError "arguments[0].slice is not a function"), module_heap).
Proof. reflexivity. Qed.

(** C9, where the code leaves the claim: [setColor] returns the receiver
    itself, after overwriting its [shared] field with a new record. *)
Example setColor_overwrites_shared :
  let after := setColor 0 [Num 1%float; Num 0%float; Num 0%float] float_heap in
  after.1 = OK 0 /\
  shared <$> polygons float_heap !! 0 = Some defaultShared /\
  shared <$> polygons after.2 !! 0 = Some 1 /\
  color <$> shareds after.2 !! 1
  = Some (Some [Num 1%float; Num 0%float; Num 0%float; Num 1%float]).
Proof. vm_compute. repeat split. Qed.

(** *** The further properties at work *)

#[local] Existing Instance real_production.
#[local] Existing Instance float_toString.

Lemma float_heap_valid : heap_valid float_heap.
Proof. apply heap_valid_new_Polygon3, heap_valid_module. Qed.

Lemma receiver_frame_witness :
  (getArea 0 float_heap).2 = float_heap /\
  polygons (flipped 0 float_heap).2 !! 0 = Some (triangle_polygon 10%float).
Proof.
  destruct (receiver_frame float_heap 0 (triangle_polygon 10%float) float_heap_triangle)
    as (_ & Harea & _ & _ & _ & Hflipped & _).
  - apply caches_valid_new.
  - split; [exact Harea|exact Hflipped].
Defined.

Lemma heap_valid_preserved_witness :
  heap_valid (boundingSphere 0 float_heap).2 /\
  heap_valid (setColor 0 [Num 1%float] float_heap).2.
Proof.
  destruct (heap_valid_preserved float_heap 0 float_heap_valid)
    as (HsetColor & _ & _ & _ & _ & Hsphere & _).
  split; [exact Hsphere|apply HsetColor].
Defined.

(** On doubles: the first [boundingBox()] of the triangle stores its answer,
    and a second one, on the filled cache, answers the same and writes
    nothing. *)
Lemma bounds_queries_memoized_witness :
  exists box,
    boundingBox 0 float_heap
    = (OK box, mkHeap (<[0 := set_cachedBoundingBox box (triangle_polygon 10%float)]>
                         (polygons float_heap)) (shareds float_heap)) /\
    boundingBox 0 (boundingBox 0 float_heap).2 = (OK box, (boundingBox 0 float_heap).2).
Proof.
  destruct (bounds_queries_memoized float_heap 0 (triangle_polygon 10%float)
              float_heap_triangle) as (_ & _ & Hstore & _).
  destruct (Hstore eq_refl) as [box Hrun].
  exists box. split; [exact Hrun|]. rewrite Hrun. cbn [snd].
  refine (proj1 (bounds_queries_memoized _ 0
                   (set_cachedBoundingBox box (triangle_polygon 10%float)) _) box eq_refl).
  cbn [polygons]. apply lookup_insert_eq.
Defined.

Lemma setColor_all_or_nothing_witness :
  (exists newshared c,
     length c = 4 /\
     shareds float_heap !! newshared = None /\
     setColor 0 [Num 1%float; Num 0%float] float_heap
     = (OK 0, mkHeap (<[0 := set_shared newshared (triangle_polygon 10%float)]>
                        (polygons float_heap))
                     (<[newshared := mkShared (Some c)]> (shareds float_heap)))) \/
  (exists e, setColor 0 [Num 1%float; Num 0%float] float_heap = (Throw e, float_heap)).
Proof.
  exact (setColor_all_or_nothing float_heap 0 (triangle_polygon 10%float)
           [Num 1%float; Num 0%float] float_heap_triangle).
Defined.

Lemma setColor_spares_derived_polygons_witness :
  exists l h1 q,
    transform 0 mirror_x float_heap = (OK l, h1) /\
    polygons h1 !! l = Some q /\
    polygons (setColor 0 [Num 1%float; Num 0%float; Num 0%float] h1).2 !! l = Some q /\
    shareds (setColor 0 [Num 1%float; Num 0%float; Num 0%float] h1).2 !! defaultShared
    = shareds float_heap !! defaultShared.
Proof.
  destruct (setColor_spares_derived_polygons float_heap 0 (triangle_polygon 10%float)
              mirror_x [Num 1%float; Num 0%float; Num 0%float] float_heap_triangle)
    as (l & h1 & q & Hrun & Hq & _ & Hkept & Hcolor & _).
  - vm_compute. eexists. reflexivity.
  - intros _. vm_compute. reflexivity.
  - exists l, h1, q. repeat split; assumption.
Defined.

Lemma shared_colors_have_four_components_witness :
  shareds_valid
    (Shared_fromColor [Num 1%float; Num 0%float; Num 0%float]
       (module_heap (Vertex := Vertex3 float))).2.
Proof.
  destruct (shared_colors_have_four_components (num := float) (Vertex := Vertex3 float))
    as [Hmodule Hstep].
  destruct (Hstep module_heap Hmodule) as (_ & HfromColor & _).
  apply HfromColor.
Defined.

Lemma transform_twice_order_witness :
  exists l1 h1 l2 h2 q2,
    transform 0 mirror_x float_heap = (OK l1, h1) /\
    transform l1 mirror_x h1 = (OK l2, h2) /\
    polygons h2 !! l2 = Some q2 /\
    vertices q2
    = (fun v => Vertex_transform (Vertex_transform v mirror_x) mirror_x)
        <$> triangle 10%float.
Proof.
  destruct (transform_twice_order float_heap 0 (triangle_polygon 10%float)
              mirror_x mirror_x float_heap_triangle)
    as (l1 & h1 & l2 & h2 & q2 & Hrun1 & Hrun2 & Hq2 & Hvertices & _).
  - intros _. vm_compute. reflexivity.
  - intros _. vm_compute. reflexivity.
  - exists l1, h1, l2, h2, q2. repeat split; assumption.
Defined.

Lemma colored_heap_valid : shareds_valid colored_heap.
Proof.
  unfold colored_heap.
  destruct (Shared_fromColor_outcome (Vertex := Vertex3 float) module_heap
              [Num 1; Num 0; Num 0; Num 0.5]%float) as [(c & Hc & ->)|(e & ->)];
    [|exact shareds_valid_module].
  apply shareds_valid_insert; [exact shareds_valid_module|]. right. now exists c.
Qed.

(** On doubles: the hash of the record of [Shared.fromColor(1, 0, 0, 0.5)]
    is "1/0/0/0.5", and the hash of the colorless default record "null". *)
Lemma getHash_null_iff_no_color_witness :
  Shared_getHash 1 colored_heap = (OK "1/0/0/0.5", colored_heap) /\
  has_slash "1/0/0/0.5" = true /\
  Shared_getHash defaultShared colored_heap = (OK "null", colored_heap).
Proof.
  destruct (getHash_null_iff_no_color colored_heap 1
              (mkShared (Some [Num 1; Num 0; Num 0; Num 0.5]%float)) colored_heap_valid)
    as (hash & Hrun & _ & Hslash); [reflexivity|].
  destruct (getHash_null_iff_no_color colored_heap defaultShared (mkShared None)
              colored_heap_valid) as (null & Hrun0 & Hnull & _); [reflexivity|].
  assert (Hhash : hash = "1/0/0/0.5").
  { assert (Heq : (Shared_getHash 1 colored_heap).1 = OK "1/0/0/0.5")
      by (vm_compute; reflexivity).
    rewrite Hrun in Heq. now injection Heq. }
  subst hash. split; [exact Hrun|]. split; [apply Hslash; discriminate|].
  rewrite Hrun0. now rewrite (proj2 Hnull eq_refl).
Defined.

Lemma createFromPoints_vertices_and_plane_witness :
  createFromPoints [(0%float, 0%float, 0%float); (0%float, 10%float, 0%float)]
    None None (module_heap (Vertex := Vertex3 float))
  = (Throw (TypeError "Cannot read properties of undefined (reading 'pos')"),
     module_heap).
Proof.
  apply (createFromPoints_vertices_and_plane (Vertex := Vertex3 float)).
  - intros v. reflexivity.
  - cbn. lia.
Defined.

Lemma fromObject_rebuilds_witness :
  exists s l,
    shareds (module_heap (num := float) (Vertex := Vertex3 float)) !! s = None /\
    (Polygon3_fromObject triangle_object module_heap).1 = OK l.
Proof.
  destruct (proj1 (fromObject_rebuilds (Vertex := Vertex3 float) module_heap
                     triangle_object)) as (s & l & Hs & _ & Hrun).
  - right. eexists. split; reflexivity.
  - exists s, l. split; [exact Hs|]. rewrite Hrun; [reflexivity|].
    intros _. vm_compute. reflexivity.
Defined.

Lemma translate_keeps_order_witness :
  exists l h',
    translate 0 (Vector3D.Create 1%float 2%float 3%float) float_heap = (OK l, h') /\
    polygons h' !! 0 = Some (triangle_polygon 10%float).
Proof.
  destruct (translate_keeps_order float_heap 0 (triangle_polygon 10%float)
              (Vector3D.Create 1%float 2%float 3%float) float_heap_triangle)
    as (l & h' & Hrun & _ & Hkept).
  - vm_compute. reflexivity.
  - intros _. vm_compute. reflexivity.
  - exists l, h'. split; assumption.
Defined.

Lemma real_heap_triangle : polygons real_heap !! 0 = Some (triangle_polygon 10%R).
Proof. apply lookup_singleton_eq. Qed.

Lemma Vertex3_flipped_pos (v : Vertex3 R) : pos (Vertex_flipped v) = pos v.
Proof. reflexivity. Qed.

Lemma real_triangle_convex :
  verticesConvex (triangle 10%R) (Plane.normal plane_x) = OK true.
Proof.
  rewrite verticesConvex_corners. unfold convex_loop, corner_convex.
  cbn. repeat (destruct (Rle_dec _ _) as [_|Hno]; [|exfalso; apply Hno; lra]).
  reflexivity.
Qed.

Lemma real_production_validated (vertices : list (Vertex3 R)) (pl : Plane R) :
  validated vertices pl.
Proof. intros Hdebug. discriminate Hdebug. Qed.

Lemma flipped_keeps_convexity_witness :
  exists l h',
    flipped 0 real_heap = (OK l, h') /\ checkIfConvex l h' = (OK true, h').
Proof.
  apply (proj2 (flipped_keeps_convexity (Vertex := Vertex3 R) Vertex3_flipped_pos)
           real_heap 0 (triangle_polygon 10%R) real_heap_triangle).
  unfold checkIfConvex, M_bind, lift. rewrite (deref_Some _ _ _ real_heap_triangle).
  cbn [vertices plane triangle_polygon]. now rewrite real_triangle_convex.
Defined.

Lemma strictly_convex_is_convex_witness :
  isConvexPoint (Vector3D.Create 0 0 0)%R (Vector3D.Create 0 10 0)%R
                (Vector3D.Create 0 10 10)%R (Plane.normal plane_x) = true.
Proof.
  apply strictly_convex_is_convex.
  - cbn. lra.
  - unfold isStrictlyConvexPoint. cbn.
    destruct (Rle_dec _ _) as [_|Hno]; [reflexivity|]. exfalso. apply Hno. lra.
Defined.

Lemma segment_heap_segment :
  polygons segment_heap !! 0
  = Some (mkPolygon3 (take 2 (triangle 10%R)) defaultShared plane_x None None).
Proof. apply lookup_singleton_eq. Qed.

Lemma degenerate_measures_zero_witness :
  getArea 0 segment_heap = (OK 0%R, segment_heap) /\
  getSignedVolume 0 segment_heap = (OK 0%R, segment_heap).
Proof.
  apply (degenerate_measures_zero segment_heap 0 _ segment_heap_segment).
  cbn. lia.
Defined.

Lemma getArea_nonnegative_witness :
  exists area : R, getArea 0 real_heap = (OK area, real_heap) /\ (0 <= area)%R.
Proof.
  exact (getArea_nonnegative real_heap 0 (triangle_polygon 10%R) real_heap_triangle).
Defined.

Lemma flipped_keeps_boundingBox_witness :
  exists l h',
    flipped 0 real_heap = (OK l, h') /\
    (boundingBox l h').1 = (boundingBox 0 real_heap).1.
Proof.
  apply (flipped_keeps_boundingBox real_heap 0 (triangle_polygon 10%R)
           Vertex3_flipped_pos real_heap_triangle).
  - apply caches_valid_new.
  - apply real_production_validated.
Defined.

Lemma triangle_flipped_area_witness :
  exists l h' area,
    flipped 0 real_heap = (OK l, h') /\
    getArea 0 real_heap = (OK area, real_heap) /\
    getArea l h' = (OK area, h').
Proof.
  apply (triangle_flipped_area real_heap 0 (triangle_polygon 10%R)
           Vertex3_flipped_pos real_heap_triangle).
  - reflexivity.
  - apply real_production_validated.
Defined.
End instances.
